(** * YOLO-OBB streaming inference node: model and verification

    A shallow embedding of [src/yolo_detect/scripts/yolo_2d_obb.py]
    (class [YoloOBBNode]: [__init__] and [image_callback]).

    Conventions of the embedding.
    - Python floats are IEEE binary64 numbers: Rocq's primitive [float].
      The integer literals [0] that [__init__] stores in the four FPS
      attributes are embedded as the float [0]; every operation the
      source applies to them ([> 0], [* 0.9], [:.1f]) agrees on the two.
    - Everything the node calls but does not define (clock, OpenCV codec,
      the detector, the transport) is an explicit input: the detector is
      the [YOLO] object stored in the node, the rest is the per-call
      record [world].  Decoding, inference, encoding and the two
      publications either return or raise, as do the [int] cast and the
      name lookup.  The decoder raises on an empty payload; on bytes
      that are no image it returns a value that is no image ([None] in
      OpenCV), which is one of the values of the raster type here: lines
      75-80 catch only the former.  Formatting a rate and drawing text
      are total.
    - The control flow of a method body (fall through, [return], a
      propagating exception, [try]/[except]) is kept by a small monad
      over the node's attributes and the trace of emitted events. *)

From Stdlib Require Import ZArith String List Bool Floats.
From stdpp Require Import base option gmap strings pretty.
Import ListNotations.

Set Warnings "-inexact-float".
Local Open Scope string_scope.
Local Open Scope list_scope.

(** ** Exceptions and external calls *)

(** A Python exception: its class and [str(e)]. *)
Record exn := Exn { exn_class : string; exn_str : string }.

(** What a call into code outside the node does: return or raise. *)
Inductive outcome (A : Type) : Type :=
| Ok (a : A)
| Raises (e : exn).
Arguments Ok {A} a.
Arguments Raises {A} e.

(** ** Messages *)

Definition bytes := list Byte.byte.

(** Modelled from the spec: the header type (std_msgs/Header) is declared
    outside the repository; the spec describes it as an identifier plus a
    timestamp.  The node only ever copies it. *)
Record Header := { hdr_id : Z; hdr_stamp : float }.

(** sensor_msgs/CompressedImage, with the three fields the node uses. *)
Record CompressedImage := {
  ci_header : Header;
  ci_format : string;
  ci_data : bytes
}.

(** Modelled from the spec: [yolo_detect/msg/OBBDetection.msg] is not
    among the sources; the fields are those the callback assigns. *)
Record OBBDetection := {
  class_id : Z;
  class_name : string;
  score : float;
  x_center : float;
  y_center : float;
  width : float;
  height : float;
  angle : float
}.

(** Modelled from the spec: [yolo_detect/msg/OBBDetectionArray.msg] is not
    among the sources; a header and the sequence of detections. *)
Record OBBDetectionArray := {
  da_header : Header;
  detections : list OBBDetection
}.

(** A value of the ROS parameter server, passed around untouched. *)
Inductive param :=
| PStr (s : string)
| PFloat (x : float)
| PInt (n : Z)
| PBool (b : bool).

(** ** Python numeric conversions *)

(** [int(x)] on a float: truncation toward zero; NaN and the infinities
    raise. *)
Definition int_ (x : float) : outcome Z :=
  match Prim2SF x with
  | S754_zero _ => Ok 0%Z
  | S754_finite s m e =>
      let mag := Z.shiftl (Z.pos m) e in
      Ok (if s then (- mag)%Z else mag)
  | S754_infinity _ =>
      Raises (Exn "OverflowError" "cannot convert float infinity to integer")
  | S754_nan =>
      Raises (Exn "ValueError" "cannot convert float NaN to integer")
  end.

(** [float(x)] on a scalar that already is a float. *)
Definition float_ (x : float) : float := x.

(** [a > b] on floats. *)
Definition gt (a b : float) : bool := (b <? a)%float.
Infix ">?" := gt (at level 70, no associativity) : float_scope.

(** ** Events and control *)

Inductive level := INFO | WARN | ERROR | FATAL.

(** What the node does that the outside can observe. *)
Inductive event :=
| Log (l : level) (text : string)
| PublishImage (m : CompressedImage)
| PublishDetections (m : OBBDetectionArray).

(** How a block of statements ends. *)
Inductive signal (A : Type) : Type :=
| Next (a : A)
| Return_
| Raise (e : exn).
Arguments Next {A} a.
Arguments Return_ {A}.
Arguments Raise {A} e.

(** ** The detector (ultralytics) *)

(** One oriented box of [result.obb]: the one-element tensors [cls] and
    [conf], and the row [xywhr[0]]. *)
Record OBB := {
  cls : float;
  conf : float;
  xywhr : float * float * float * float * float
}.

Section Node.

(** A decoded image ([numpy] array), opaque to the node. *)
Context {raster : Type}.

(** [results[0]]: [plot()] gives the raster with the boxes drawn, [obb]
    is [None] or the boxes in the detector's order. *)
Record Results := {
  plot : raster;
  obb : option (list OBB)
}.

(** The loaded model.  [predict] is lines 84-87 as one call: the model
    applied to an image with [conf=...], the first of its results and
    that result's drawing; an exception anywhere in them is the call
    raising.  [names] is the class-name dictionary (class id to name). *)
Record YOLO := {
  predict : raster -> param -> outcome Results;
  names : gmap Z string
}.

(** ** Node attributes *)

Record YoloOBBNode := {
  engine_model_path : param;
  input_topic : param;
  obb_topic : param;
  annotated_image_topic : param;
  confidence_threshold : param;
  proc_prev_time : float;
  proc_fps : float;
  sub_prev_time : float;
  sub_fps : float;
  model : YOLO
}.

Definition set_sub_fps (v : float) (self : YoloOBBNode) : YoloOBBNode :=
  {| engine_model_path := engine_model_path self;
     input_topic := input_topic self;
     obb_topic := obb_topic self;
     annotated_image_topic := annotated_image_topic self;
     confidence_threshold := confidence_threshold self;
     proc_prev_time := proc_prev_time self;
     proc_fps := proc_fps self;
     sub_prev_time := sub_prev_time self;
     sub_fps := v;
     model := model self |}.

Definition set_sub_prev_time (v : float) (self : YoloOBBNode) : YoloOBBNode :=
  {| engine_model_path := engine_model_path self;
     input_topic := input_topic self;
     obb_topic := obb_topic self;
     annotated_image_topic := annotated_image_topic self;
     confidence_threshold := confidence_threshold self;
     proc_prev_time := proc_prev_time self;
     proc_fps := proc_fps self;
     sub_prev_time := v;
     sub_fps := sub_fps self;
     model := model self |}.

Definition set_proc_fps (v : float) (self : YoloOBBNode) : YoloOBBNode :=
  {| engine_model_path := engine_model_path self;
     input_topic := input_topic self;
     obb_topic := obb_topic self;
     annotated_image_topic := annotated_image_topic self;
     confidence_threshold := confidence_threshold self;
     proc_prev_time := proc_prev_time self;
     proc_fps := v;
     sub_prev_time := sub_prev_time self;
     sub_fps := sub_fps self;
     model := model self |}.

Definition set_proc_prev_time (v : float) (self : YoloOBBNode) : YoloOBBNode :=
  {| engine_model_path := engine_model_path self;
     input_topic := input_topic self;
     obb_topic := obb_topic self;
     annotated_image_topic := annotated_image_topic self;
     confidence_threshold := confidence_threshold self;
     proc_prev_time := v;
     proc_fps := proc_fps self;
     sub_prev_time := sub_prev_time self;
     sub_fps := sub_fps self;
     model := model self |}.

(** ** The method monad *)

(** A block of a method: reads and writes [self], emits events. *)
Definition M (A : Type) : Type :=
  YoloOBBNode -> signal A * YoloOBBNode * list event.

#[export] Instance M_ret : MRet M := fun A a self => (Next a, self, []).

#[export] Instance M_bind : MBind M := fun A B k m self =>
  match m self with
  | (Next a, self1, out1) =>
      match k a self1 with
      | (r, self2, out2) => (r, self2, out1 ++ out2)
      end
  | (Return_, self1, out1) => (Return_, self1, out1)
  | (Raise e, self1, out1) => (Raise e, self1, out1)
  end.

Definition get : M YoloOBBNode := fun self => (Next self, self, []).
Definition modify (f : YoloOBBNode -> YoloOBBNode) : M unit :=
  fun self => (Next tt, f self, []).
Definition emit (e : event) : M unit := fun self => (Next tt, self, [e]).
Definition return_ {A} : M A := fun self => (Return_, self, []).
Definition raise {A} (e : exn) : M A := fun self => (Raise e, self, []).

(** An external call: its result, or its exception propagating. *)
Definition call {A} (o : outcome A) : M A :=
  match o with
  | Ok a => mret a
  | Raises e => raise e
  end.

(** [try: body except Exception as e: handler e]. *)
Definition try_except {A} (body : M A) (handler : exn -> M A) : M A :=
  fun self =>
    match body self with
    | (Raise e, self1, out1) =>
        match handler e self1 with
        | (r, self2, out2) => (r, self2, out1 ++ out2)
        end
    | r => r
    end.

Definition when (b : bool) (body : M unit) : M unit :=
  if b then body else mret tt.

Definition logerr (text : string) : M unit := emit (Log ERROR text).

(** Exceptions also thread through code that has no node state. *)
#[export] Instance outcome_ret : MRet outcome := fun A a => Ok a.
#[export] Instance outcome_bind : MBind outcome := fun A B k o =>
  match o with
  | Ok a => k a
  | Raises e => Raises e
  end.

(** ** The world of one callback *)

(** What the calls of one [image_callback] run return: the three clock
    readings, the codec, the text formatting and drawing, and whether the
    transport takes each message. *)
Record world := {
  time_sub : float;                              (* time.time(), line 67 *)
  time_proc_start : float;                       (* time.time(), line 74 *)
  time_proc_end : float;                         (* time.time(), line 90 *)
  imdecode : bytes -> outcome raster;            (* lines 76-77 *)
  format_1f : float -> string;                   (* f"{x:.1f}" *)
  putText : raster -> string -> Z * Z -> raster; (* cv2.putText, fixed style *)
  imencode : raster -> outcome (bool * bytes);   (* lines 107 and 111 *)
  image_transport : CompressedImage -> outcome unit;
  detection_transport : OBBDetectionArray -> outcome unit
}.

(** [self.annotated_image_pub.publish(m)]: the message is out once the
    call returns. *)
Definition annotated_image_pub_publish (w : world) (m : CompressedImage)
  : M unit :=
  call (image_transport w m) ;; emit (PublishImage m).

(** [self.detection_pub.publish(m)]. *)
Definition detection_pub_publish (w : world) (m : OBBDetectionArray)
  : M unit :=
  call (detection_transport w m) ;; emit (PublishDetections m).

(** ** Building the detections (lines 121-138) *)

(** [d[k]] on a dictionary: the entry, or [KeyError]. *)
Definition getitem (d : gmap Z string) (k : Z) : outcome string :=
  match d !! k with
  | Some v => Ok v
  | None => Raises (Exn "KeyError" (pretty k))
  end.

(** The body of the [for obb in result.obb] loop, up to the append. *)
Definition detection_of (model_names : gmap Z string) (box : OBB)
  : outcome OBBDetection :=
  class_id ← int_ (cls box);
  class_name ← getitem model_names class_id;
  let '(x, y, w, h, r) := xywhr box in
  mret {| class_id := class_id;
          class_name := class_name;
          score := float_ (conf box);
          x_center := float_ x;
          y_center := float_ y;
          width := float_ w;
          height := float_ h;
          angle := float_ r |}.

(** The loop: each detection is appended to the array's list. *)
Fixpoint for_obb (model_names : gmap Z string) (boxes : list OBB)
    (dets : list OBBDetection) : outcome (list OBBDetection) :=
  match boxes with
  | [] => mret dets
  | box :: rest =>
      det ← detection_of model_names box;
      for_obb model_names rest (dets ++ [det])
  end.

(** ** [__init__] *)

(** What [__init__] finds when the process starts: the private
    parameters, the file system, model loading and export, and [str()]
    as the f-strings of the log lines apply it. *)
Record boot := {
  param_server : gmap string param;
  path_exists : param -> bool;          (* os.path.exists *)
  load : param -> outcome YOLO;        (* YOLO(path) *)
  export : YOLO -> outcome unit;       (* pt_model.export(...) *)
  str : param -> string
}.

(** [rospy.get_param(name, default)]. *)
Definition get_param (b : boot) (name : string) (dflt : param) : param :=
  default dflt (param_server b !! name).

(** How [__init__] ends: with the subscriber and both publishers
    registered on a complete node, by an early [return] that registers
    nothing, or by an exception. *)
Inductive started :=
| Serving (self : YoloOBBNode)
| Idle
| Crashed (e : exn).

Definition init (b : boot) : started * list event :=
  let pt_model_path := get_param b "~pt_model_path" (PStr "") in
  let engine_model_path := get_param b "~engine_model_path" (PStr "") in
  let input_topic :=
    get_param b "~input_topic" (PStr "/camera/color/image_raw/compressed") in
  let obb_topic := get_param b "~obb_topic" (PStr "/yolo_obb") in
  let annotated_image_topic :=
    get_param b "~annotated_image_topic"
      (PStr "/yolo_obb/camera/color/compressed") in
  let confidence_threshold :=
    get_param b "~confidence_threshold" (PFloat 0.5) in
  (* loading the engine, after the export when there was one *)
  let load_engine (out : list event) : started * list event :=
    let out :=
      out ++ [Log INFO ("Loading TensorRT engine from "
                        +:+ str b engine_model_path)] in
    match load b engine_model_path with
    | Ok model =>
        (Serving
           {| engine_model_path := engine_model_path;
              input_topic := input_topic;
              obb_topic := obb_topic;
              annotated_image_topic := annotated_image_topic;
              confidence_threshold := confidence_threshold;
              proc_prev_time := 0;
              proc_fps := 0;
              sub_prev_time := 0;
              sub_fps := 0;
              model := model |},
         out ++ [Log INFO "Ultralytics YOLO-OBB model loaded successfully.";
                 Log INFO "YOLO OBB Ultralytics node initialized and ready."])
    | Raises e =>
        (Idle,
         out ++ [Log FATAL ("Failed to load YOLO-OBB model. Error: "
                            +:+ exn_str e)])
    end in
  if negb (path_exists b engine_model_path) then
    let out :=
      [Log WARN ("TensorRT engine not found at " +:+ str b engine_model_path
                 +:+ ". Exporting from .pt model...")] in
    if negb (path_exists b pt_model_path) then
      (Idle,
       out ++ [Log FATAL (".pt model not found at " +:+ str b pt_model_path
                          +:+ ". Cannot create engine. Shutting down.")])
    else
      let out :=
        out ++ [Log INFO ("Loading .pt model from " +:+ str b pt_model_path
                          +:+ " for export.")] in
      match load b pt_model_path with
      | Raises e => (Crashed e, out)
      | Ok pt_model =>
          match export b pt_model with
          | Raises e => (Crashed e, out)
          | Ok _ =>
              load_engine
                (out ++ [Log INFO ("Export complete. Engine saved to "
                                   +:+ str b engine_model_path)])
          end
      end
  else load_engine [].

(** ** [image_callback] *)

Definition image_callback (w : world) (msg : CompressedImage) : M unit :=
  (* FPS of the subscription, and decoding *)
  let sub_current_time := time_sub w in
  self ← get;
  when (sub_prev_time self >? 0)%float (
    let time_diff := (sub_current_time - sub_prev_time self)%float in
    when (time_diff >? 0)%float (
      modify (set_sub_fps
                (sub_fps self * 0.9 + 1.0 / time_diff * 0.1)%float))) ;;
  modify (set_sub_prev_time sub_current_time) ;;
  let proc_start_time := time_proc_start w in
  cv_image ← try_except
    (call (imdecode w (ci_data msg)))
    (fun e =>
       logerr ("Error decoding compressed image: " +:+ exn_str e) ;;
       return_);
  (* inference and drawing *)
  self ← get;
  result ← call (predict (model self) cv_image (confidence_threshold self));
  let annotated_frame := plot result in
  (* FPS of the processing *)
  let proc_end_time := time_proc_end w in
  when (proc_prev_time self >? 0)%float (
    let time_diff := (proc_end_time - proc_prev_time self)%float in
    when (time_diff >? 0)%float (
      modify (set_proc_fps
                (proc_fps self * 0.9 + 1.0 / time_diff * 0.1)%float))) ;;
  modify (set_proc_prev_time proc_end_time) ;;
  self ← get;
  let sub_fps_text := "Sub FPS: " +:+ format_1f w (sub_fps self) in
  let proc_fps_text := "Proc FPS: " +:+ format_1f w (proc_fps self) in
  let annotated_frame := putText w annotated_frame sub_fps_text (10, 30)%Z in
  let annotated_frame := putText w annotated_frame proc_fps_text (10, 70)%Z in
  (* publish the annotated image *)
  try_except
    (let annotated_image_msg :=
       {| ci_header := ci_header msg; ci_format := "jpeg"; ci_data := [] |} in
     '(ret, buffer) ← call (imencode w annotated_frame);
     when (negb ret) (
       logerr "Failed to encode annotated image." ;;
       return_) ;;
     let annotated_image_msg :=
       {| ci_header := ci_header annotated_image_msg;
          ci_format := ci_format annotated_image_msg;
          ci_data := buffer |} in
     annotated_image_pub_publish w annotated_image_msg)
    (fun e =>
       logerr ("Error publishing annotated image: " +:+ exn_str e)) ;;
  (* publish the detections *)
  dets ← match obb result with
         | Some boxes => call (for_obb (names (model self)) boxes [])
         | None => mret []
         end;
  let detection_array_msg :=
    {| da_header := ci_header msg; detections := dets |} in
  detection_pub_publish w detection_array_msg.

(** ** The node seen from rospy *)

(** One notification handled: the callback returned (by falling off its
    end or by [return]), or let an exception out. *)
Definition handle (w : world) (msg : CompressedImage) (self : YoloOBBNode)
  : outcome unit * YoloOBBNode * list event :=
  match image_callback w msg self with
  | (Raise e, self', out) => (Raises e, self', out)
  | (_, self', out) => (Ok tt, self', out)
  end.

(** Notifications handled one after the other, each in its own world.
    rospy runs the callback on its subscriber thread and traps what the
    callback raises: an exception that leaves the callback ends that
    cycle only, and the next notification is handled on the attributes
    the cycle left.  The trace is what the node's own code emits; the
    result is how the dispatch itself ends. *)
Fixpoint serve (self : YoloOBBNode) (inbox : list (world * CompressedImage))
  : outcome unit * YoloOBBNode * list event :=
  match inbox with
  | [] => (Ok tt, self, [])
  | (w, msg) :: rest =>
      match handle w msg self with
      | (_, self', out) =>
          match serve self' rest with
          | (r, self'', out') => (r, self'', out ++ out')
          end
      end
  end.

(** ** The process (lines 142-147) *)

(** The [except rospy.ROSInterruptException: pass] of the main block. *)
Definition except_interrupt (r : outcome unit) : outcome unit :=
  match r with
  | Raises e =>
      if decide (exn_class e = "ROSInterruptException") then Ok tt else r
  | Ok _ => r
  end.

(** [node = YoloOBBNode(); rospy.spin()]: the notifications that arrive
    are handled by the callback when [__init__] registered it; after an
    early [return] of [__init__] nothing is registered and [spin] has
    nothing to dispatch.  The [except] clause sees what [__init__] or
    [spin] itself raises, never an exception of the callback. *)
Definition main (b : boot) (inbox : list (world * CompressedImage))
  : outcome unit * list event :=
  match init b with
  | (Serving node, out) =>
      match serve node inbox with
      | (r, _, out') => (except_interrupt r, out ++ out')
      end
  | (Idle, out) => (Ok tt, out)
  | (Crashed e, out) => (except_interrupt (Raises e), out)
  end.

(** The attributes [__init__] assigns on the way to a loaded model
    (lines 24-35 and 52). *)
Definition configured (b : boot) (loaded : YOLO) : YoloOBBNode :=
  {| engine_model_path := get_param b "~engine_model_path" (PStr "");
     input_topic :=
       get_param b "~input_topic"
         (PStr "/camera/color/image_raw/compressed");
     obb_topic := get_param b "~obb_topic" (PStr "/yolo_obb");
     annotated_image_topic :=
       get_param b "~annotated_image_topic"
         (PStr "/yolo_obb/camera/color/compressed");
     confidence_threshold :=
       get_param b "~confidence_threshold" (PFloat 0.5);
     proc_prev_time := 0;
     proc_fps := 0;
     sub_prev_time := 0;
     sub_fps := 0;
     model := loaded |}.

(** The error lines of a trace, and its fatal lines. *)
Definition errors (out : list event) : list string :=
  omap (fun ev => match ev with Log ERROR text => Some text | _ => None end)
       out.

Definition fatals (out : list event) : list string :=
  omap (fun ev => match ev with Log FATAL text => Some text | _ => None end)
       out.

(** The headers of the notifications of an inbox, in arrival order. *)
Definition arrivals (inbox : list (world * CompressedImage)) : list Header :=
  (fun x => ci_header x.2) <$> inbox.

(** ** Vocabulary of the statements *)

(** The rate one FPS block leaves (lines 68-71, and again 91-94), from
    the stored rate, the stored previous time and the current time. *)
Definition ema (fps prev_time current_time : float) : float :=
  if (prev_time >? 0)%float then
    let time_diff := (current_time - prev_time)%float in
    if (time_diff >? 0)%float
    then (fps * 0.9 + 1.0 / time_diff * 0.1)%float
    else fps
  else fps.

(** The attributes after lines 67-72. *)
Definition intake (w : world) (self : YoloOBBNode) : YoloOBBNode :=
  set_sub_prev_time (time_sub w)
    (set_sub_fps (ema (sub_fps self) (sub_prev_time self) (time_sub w)) self).

(** The attributes after lines 90-95. *)
Definition timed (w : world) (self : YoloOBBNode) : YoloOBBNode :=
  set_proc_prev_time (time_proc_end w)
    (set_proc_fps
       (ema (proc_fps self) (proc_prev_time self) (time_proc_end w)) self).

(** The frame handed to the encoder: the detector's drawing with the two
    FPS lines on it (lines 97-100). *)
Definition overlay (w : world) (self : YoloOBBNode) (result : Results)
  : raster :=
  putText w
    (putText w (plot result)
       ("Sub FPS: " +:+ format_1f w (sub_fps self)) (10, 30)%Z)
    ("Proc FPS: " +:+ format_1f w (proc_fps self)) (10, 70)%Z.

(** The annotated-image message of a frame, once encoded. *)
Definition annotated_msg (msg : CompressedImage) (buffer : bytes)
  : CompressedImage :=
  {| ci_header := ci_header msg; ci_format := "jpeg"; ci_data := buffer |}.

(** The boxes the loop of line 122 runs over: none when [obb] is [None]. *)
Definition boxes_of (result : Results) : list OBB := default [] (obb result).

(** The messages of a trace, per channel. *)
Definition images (out : list event) : list CompressedImage :=
  omap (fun ev => match ev with PublishImage m => Some m | _ => None end) out.

Definition batches (out : list event) : list OBBDetectionArray :=
  omap (fun ev => match ev with PublishDetections m => Some m | _ => None end)
       out.

(** How the [try] block of lines 103-114 ends when the callback goes on
    to the detections, with what it emitted. *)
Inductive image_step (w : world) (msg : CompressedImage) (frame : raster)
  : list event -> Prop :=
| image_encode_raised e :
    imencode w frame = Raises e ->
    image_step w msg frame
      [Log ERROR ("Error publishing annotated image: " +:+ exn_str e)]
| image_publish_raised buffer e :
    imencode w frame = Ok (true, buffer) ->
    image_transport w (annotated_msg msg buffer) = Raises e ->
    image_step w msg frame
      [Log ERROR ("Error publishing annotated image: " +:+ exn_str e)]
| image_published buffer :
    imencode w frame = Ok (true, buffer) ->
    image_transport w (annotated_msg msg buffer) = Ok tt ->
    image_step w msg frame [PublishImage (annotated_msg msg buffer)].

(** The paths through [image_callback], each with the answers of the
    outside that select it and with what the callback then yields. *)
Inductive cycle (w : world) (msg : CompressedImage) (self : YoloOBBNode)
  : signal unit * YoloOBBNode * list event -> Prop :=
| cycle_decode_error e :
    imdecode w (ci_data msg) = Raises e ->
    cycle w msg self
      (Return_, intake w self,
       [Log ERROR ("Error decoding compressed image: " +:+ exn_str e)])
| cycle_detector_error cv_image e :
    imdecode w (ci_data msg) = Ok cv_image ->
    predict (model self) cv_image (confidence_threshold self) = Raises e ->
    cycle w msg self (Raise e, intake w self, [])
| cycle_encode_failed cv_image result buffer :
    imdecode w (ci_data msg) = Ok cv_image ->
    predict (model self) cv_image (confidence_threshold self) = Ok result ->
    imencode w (overlay w (timed w (intake w self)) result)
      = Ok (false, buffer) ->
    cycle w msg self
      (Return_, timed w (intake w self),
       [Log ERROR "Failed to encode annotated image."])
| cycle_batch_error cv_image result out e :
    imdecode w (ci_data msg) = Ok cv_image ->
    predict (model self) cv_image (confidence_threshold self) = Ok result ->
    image_step w msg (overlay w (timed w (intake w self)) result) out ->
    for_obb (names (model self)) (boxes_of result) [] = Raises e ->
    cycle w msg self (Raise e, timed w (intake w self), out)
| cycle_transport_error cv_image result out dets e :
    imdecode w (ci_data msg) = Ok cv_image ->
    predict (model self) cv_image (confidence_threshold self) = Ok result ->
    image_step w msg (overlay w (timed w (intake w self)) result) out ->
    for_obb (names (model self)) (boxes_of result) [] = Ok dets ->
    detection_transport w
      {| da_header := ci_header msg; detections := dets |} = Raises e ->
    cycle w msg self (Raise e, timed w (intake w self), out)
| cycle_done cv_image result out dets :
    imdecode w (ci_data msg) = Ok cv_image ->
    predict (model self) cv_image (confidence_threshold self) = Ok result ->
    image_step w msg (overlay w (timed w (intake w self)) result) out ->
    for_obb (names (model self)) (boxes_of result) [] = Ok dets ->
    detection_transport w
      {| da_header := ci_header msg; detections := dets |} = Ok tt ->
    cycle w msg self
      (Next tt, timed w (intake w self),
       out ++ [PublishDetections
                 {| da_header := ci_header msg; detections := dets |}]).

End Node.

Arguments YOLO : clear implicits.
Arguments Results : clear implicits.
Arguments YoloOBBNode : clear implicits.
Arguments world : clear implicits.
Arguments boot : clear implicits.
Arguments started : clear implicits.

(** ** A small concrete system *)

(** A raster is stood for by a label; the detector knows a fixed list of
    boxes and returns those the threshold it is called with lets through;
    as [plot()] draws every box with its class name, a box that cannot be
    converted makes the call of lines 84-87 raise.  The codec and the
    transport are given per world.  The statements below are tried on
    it. *)
Module Demo.

Definition class_names : gmap Z string :=
  {[ 0%Z := "plane"; 1%Z := "ship"; 2%Z := "storage tank" ]}.

Definition detector (boxes : list OBB) : YOLO string :=
  {| predict := fun image c =>
       match c with
       | PFloat t =>
           let kept :=
             List.filter (fun b => negb (conf b <? t)%float) boxes in
           match for_obb class_names kept [] with
           | Ok _ => Ok {| plot := image +:+ "+boxes"; obb := Some kept |}
           | Raises e => Raises e
           end
       | _ => Raises (Exn "TypeError" "conf must be a number")
       end;
     names := class_names |}.

Definition boot_ (boxes : list OBB) : boot string :=
  {| param_server := {[ "~engine_model_path" := PStr "/models/obb.engine" ]};
     path_exists := fun _ => true;
     load := fun _ => Ok (detector boxes);
     export := fun _ => Ok tt;
     str := fun p => match p with PStr s => s | _ => "" end |}.

(** The node [init (boot_ boxes)] leaves, with chosen FPS attributes. *)
Definition node (boxes : list OBB) (prev_time fps : float)
  : YoloOBBNode string :=
  {| engine_model_path := PStr "/models/obb.engine";
     input_topic := PStr "/camera/color/image_raw/compressed";
     obb_topic := PStr "/yolo_obb";
     annotated_image_topic := PStr "/yolo_obb/camera/color/compressed";
     confidence_threshold := PFloat 0.5;
     proc_prev_time := prev_time;
     proc_fps := fps;
     sub_prev_time := prev_time;
     sub_fps := fps;
     model := detector boxes |}.

(** A world at clock [t]: an empty payload makes the decoder raise, the
    encoder answers [enc], the transport takes everything. *)
Definition world_ (t : float) (enc : outcome (bool * bytes)) : world string :=
  {| time_sub := t;
     time_proc_start := t;
     time_proc_end := (t + 0.25)%float;
     imdecode := fun data =>
       match data with
       | [] => Raises (Exn "error" "(-215:Assertion failed) !buf.empty()")
       | _ => Ok "frame"
       end;
     format_1f := fun _ => "0.0";
     putText := fun image text _ => image +:+ "|" +:+ text;
     imencode := fun _ => enc;
     image_transport := fun _ => Ok tt;
     detection_transport := fun _ => Ok tt |}.

(** The same world with the detection publisher closed: its [publish]
    raises. *)
Definition world_closed (t : float) (enc : outcome (bool * bytes))
  : world string :=
  {| time_sub := time_sub (world_ t enc);
     time_proc_start := time_proc_start (world_ t enc);
     time_proc_end := time_proc_end (world_ t enc);
     imdecode := imdecode (world_ t enc);
     format_1f := format_1f (world_ t enc);
     putText := putText (world_ t enc);
     imencode := imencode (world_ t enc);
     image_transport := image_transport (world_ t enc);
     detection_transport := fun _ =>
       Raises (Exn "ROSException" "publish() to a closed topic") |}.

Definition jpeg : bytes := [Byte.xff; Byte.xd8; Byte.xff; Byte.xd9].

(** The frame of the spec's end-to-end scenario, header [{id=7, t=100.0}]. *)
Definition frame : CompressedImage :=
  {| ci_header := {| hdr_id := 7; hdr_stamp := 100.0 |};
     ci_format := "jpeg";
     ci_data := jpeg |}.

(** A notification with an empty payload. *)
Definition bad_frame : CompressedImage :=
  {| ci_header := {| hdr_id := 6; hdr_stamp := 99.5 |};
     ci_format := "jpeg";
     ci_data := [] |}.

(** The detector result of the scenario, a weaker one, and a box of a
    class the name table does not have, for the lookup alone. *)
Definition box : OBB :=
  {| cls := 2; conf := 0.83; xywhr := (50, 60, 20, 10, 0.3)%float |}.

Definition faint_box : OBB :=
  {| cls := 1; conf := 0.25; xywhr := (5, 6, 2, 1, 0)%float |}.

Definition stray_box : OBB :=
  {| cls := 7; conf := 0.9; xywhr := (1, 2, 3, 4, 0.5)%float |}.

End Demo.

(** ** A system whose decoder returns [None] *)

(** Rasters as OpenCV hands them to the callback: an image, or [None]
    for bytes that are no image; the decoder raises on an empty payload
    only.  Two detectors: one that, given no image, runs on a sample
    image of its own, and one that refuses. *)
Module Undecoded.

Definition garbage : bytes := [Byte.x6e; Byte.x6f; Byte.x70; Byte.x65].

(** A notification whose payload is no image. *)
Definition frame : CompressedImage :=
  {| ci_header := {| hdr_id := 8; hdr_stamp := 100.5 |};
     ci_format := "jpeg";
     ci_data := garbage |}.

Definition world_ (t : float) : world (option string) :=
  {| time_sub := t;
     time_proc_start := t;
     time_proc_end := (t + 0.25)%float;
     imdecode := fun data =>
       match data with
       | [] => Raises (Exn "error" "(-215:Assertion failed) !buf.empty()")
       | Byte.xff :: Byte.xd8 :: _ => Ok (Some "frame")
       | _ => Ok None
       end;
     format_1f := fun _ => "0.0";
     putText := fun image text _ =>
       (fun label => label +:+ "|" +:+ text) <$> image;
     imencode := fun image =>
       match image with
       | Some _ => Ok (true, Demo.jpeg)
       | None => Raises (Exn "error" "(-215:Assertion failed) !image.empty()")
       end;
     image_transport := fun _ => Ok tt;
     detection_transport := fun _ => Ok tt |}.

Definition sampling : YOLO (option string) :=
  {| predict := fun image _ =>
       Ok {| plot := Some (default "sample" image +:+ "+boxes");
             obb := Some [Demo.box] |};
     names := Demo.class_names |}.

Definition refusing : YOLO (option string) :=
  {| predict := fun image _ =>
       match image with
       | Some label =>
           Ok {| plot := Some (label +:+ "+boxes"); obb := Some [Demo.box] |}
       | None => Raises (Exn "TypeError" "Unsupported image type")
       end;
     names := Demo.class_names |}.

Definition node (loaded : YOLO (option string)) : YoloOBBNode (option string) :=
  {| engine_model_path := PStr "/models/obb.engine";
     input_topic := PStr "/camera/color/image_raw/compressed";
     obb_topic := PStr "/yolo_obb";
     annotated_image_topic := PStr "/yolo_obb/camera/color/compressed";
     confidence_threshold := PFloat 0.5;
     proc_prev_time := 0;
     proc_fps := 0;
     sub_prev_time := 0;
     sub_fps := 0;
     model := loaded |}.

End Undecoded.

(** * Properties *)

(** ** Float facts used below *)

Lemma SF64mul_comm (x y : spec_float) : SF64mul x y = SF64mul y x.
Proof.
  unfold SF64mul, SFmul.
  destruct x as [sx|sx| |sx mx ex], y as [sy|sy| |sy my ey]; try reflexivity;
    try (rewrite (xorb_comm sx sy); reflexivity).
  rewrite (xorb_comm sx sy), (Pos.mul_comm mx my), (Z.add_comm ex ey).
  reflexivity.
Qed.

Lemma float_mul_comm (x y : float) : (x * y = y * x)%float.
Proof.
  rewrite <- (SF2Prim_Prim2SF (x * y)), <- (SF2Prim_Prim2SF (y * x)).
  rewrite !mul_spec. now rewrite SF64mul_comm.
Qed.

Lemma float_le_zero_not_gt (d : float) :
  (d <=? 0)%float = true -> (d >? 0)%float = false.
Proof.
  unfold gt. rewrite leb_spec, ltb_spec.
  change (Prim2SF 0) with (S754_zero false).
  unfold SFleb, SFltb, SFcompare.
  destruct (Prim2SF d) as [s|s| |s m e]; try reflexivity; try discriminate;
    destruct s; try reflexivity; discriminate.
Qed.

Section Callback.

Context {raster : Type}.
Implicit Types (w : world raster) (self : YoloOBBNode raster).
Implicit Types (msg : CompressedImage) (result : Results raster).

(** ** Running the monad *)

Lemma bind_next {A B} (m : M A) (k : A -> M B) self a s1 o1 :
  m self = (Next a, s1, o1) ->
  (m ≫= k) self = (let '(r, s2, o2) := k a s1 in (r, s2, o1 ++ o2)).
Proof. intros H. unfold mbind, M_bind. now rewrite H. Qed.

Lemma bind_return {A B} (m : M A) (k : A -> M B) self s1 o1 :
  m self = (Return_, s1, o1) -> (m ≫= k) self = (Return_, s1, o1).
Proof. intros H. unfold mbind, M_bind. now rewrite H. Qed.

Lemma bind_raise {A B} (m : M A) (k : A -> M B) self e s1 o1 :
  m self = (Raise e, s1, o1) -> (m ≫= k) self = (Raise e, s1, o1).
Proof. intros H. unfold mbind, M_bind. now rewrite H. Qed.

Lemma try_next {A} (body : M A) h self a s1 o1 :
  body self = (Next a, s1, o1) -> try_except body h self = (Next a, s1, o1).
Proof. intros H. unfold try_except. now rewrite H. Qed.

Lemma try_raise {A} (body : M A) h self e s1 o1 :
  body self = (Raise e, s1, o1) ->
  try_except body h self = (let '(r, s2, o2) := h e s1 in (r, s2, o1 ++ o2)).
Proof. intros H. unfold try_except. now rewrite H. Qed.

(** Everything of the monad, unfolded; strings and floats stay folded. *)
Ltac run :=
  cbv beta iota zeta delta
    [mbind M_bind mret M_ret try_except call raise return_ when negb
     logerr emit annotated_image_pub_publish detection_pub_publish].

(** ** The two FPS blocks *)

Lemma set_sub_fps_same self : set_sub_fps (sub_fps self) self = self.
Proof. now destruct self. Qed.

Lemma set_proc_fps_same self : set_proc_fps (proc_fps self) self = self.
Proof. now destruct self. Qed.

Lemma sub_fps_block w self :
  when (sub_prev_time self >? 0)%float
    (when (time_sub w - sub_prev_time self >? 0)%float
       (modify (set_sub_fps
          (sub_fps self * 0.9
           + 1.0 / (time_sub w - sub_prev_time self) * 0.1)%float))) self
  = (Next tt,
     set_sub_fps (ema (sub_fps self) (sub_prev_time self) (time_sub w)) self,
     []).
Proof.
  unfold ema, when.
  destruct (sub_prev_time self >? 0)%float;
    [destruct (time_sub w - sub_prev_time self >? 0)%float|];
    cbn; now rewrite ?set_sub_fps_same.
Qed.

Lemma proc_fps_block w self :
  when (proc_prev_time self >? 0)%float
    (when (time_proc_end w - proc_prev_time self >? 0)%float
       (modify (set_proc_fps
          (proc_fps self * 0.9
           + 1.0 / (time_proc_end w - proc_prev_time self) * 0.1)%float))) self
  = (Next tt,
     set_proc_fps
       (ema (proc_fps self) (proc_prev_time self) (time_proc_end w)) self,
     []).
Proof.
  unfold ema, when.
  destruct (proc_prev_time self >? 0)%float;
    [destruct (time_proc_end w - proc_prev_time self >? 0)%float|];
    cbn; now rewrite ?set_proc_fps_same.
Qed.

(** ** The paths of the callback *)

(** The three ways the detections part ends, once the image part fell
    through with [out]. *)
Ltac close_path cv_image result :=
  first
    [ solve [eapply (cycle_done _ _ _ cv_image result [_] _);
             eauto using image_step]
    | solve [eapply (cycle_transport_error _ _ _ cv_image result [_] _);
             eauto using image_step]
    | solve [eapply (cycle_batch_error _ _ _ cv_image result [_]);
             eauto using image_step] ].

(** Whatever the outside answers, [image_callback] takes one of the
    paths of [cycle]. *)
Lemma image_callback_cycle w msg self :
  cycle w msg self (image_callback w msg self).
Proof.
  unfold image_callback.
  (* lines 67-72 *)
  erewrite bind_next by reflexivity.
  erewrite bind_next by apply sub_fps_block.
  erewrite bind_next by reflexivity.
  change (set_sub_prev_time _ _) with (intake w self).
  (* lines 75-80 *)
  destruct (imdecode w (ci_data msg)) as [cv_image|e] eqn:Hdec.
  2:{ erewrite bind_return.
      2:{ erewrite try_raise by reflexivity.
          erewrite bind_next by reflexivity. reflexivity. }
      cbn [app]. now constructor. }
  erewrite bind_next by (erewrite try_next by reflexivity; reflexivity).
  (* lines 84-87 *)
  erewrite bind_next by reflexivity.
  change (model (intake w self)) with (model self).
  change (confidence_threshold (intake w self))
    with (confidence_threshold self).
  destruct (predict (model self) cv_image (confidence_threshold self))
    as [result|e] eqn:Hdet.
  2:{ erewrite bind_raise by reflexivity. cbn [app].
      now apply cycle_detector_error with cv_image. }
  erewrite bind_next by reflexivity.
  (* lines 90-100 *)
  erewrite bind_next by apply proc_fps_block.
  erewrite bind_next by reflexivity.
  change (set_proc_prev_time _ _) with (timed w (intake w self)).
  erewrite bind_next by reflexivity.
  change (putText w _ _ _) with (overlay w (timed w (intake w self)) result).
  change (model (timed w (intake w self))) with (model self).
  set (st := timed w (intake w self)).
  set (frame := overlay w st result).
  (* lines 121-122: no boxes when [obb] is [None] *)
  assert (Hboxes :
    match obb result with
    | Some boxes =>
        call (raster:=raster) (for_obb (names (model self)) boxes [])
    | None => mret []
    end = call (for_obb (names (model self)) (boxes_of result) [])).
  { unfold boxes_of. now destruct (obb result). }
  rewrite Hboxes. clear Hboxes.
  (* lines 103-114, then 118-140 *)
  destruct (imencode w frame) as [[[|] buffer]|e] eqn:Henc; run.
  - change (Build_CompressedImage _ _ buffer) with (annotated_msg msg buffer).
    destruct (image_transport w (annotated_msg msg buffer)) as [[]|e] eqn:Hpub;
      (destruct (for_obb (names (model self)) (boxes_of result) [])
         as [dets|e'] eqn:Hfor;
       [destruct (detection_transport w
                    {| da_header := ci_header msg; detections := dets |})
          as [[]|e''] eqn:Hdpub|]);
      run; cbn [app]; close_path cv_image result.
  - cbn [app]. now apply (cycle_encode_failed _ _ _ cv_image result buffer).
  - destruct (for_obb (names (model self)) (boxes_of result) [])
      as [dets|e'] eqn:Hfor;
      [destruct (detection_transport w
                   {| da_header := ci_header msg; detections := dets |})
         as [[]|e''] eqn:Hdpub|];
      run; cbn [app]; close_path cv_image result.
Qed.

(** ** One notification, by the answers of the outside *)

(** Two answers to the same call are the same answer. *)
Ltac same_answers :=
  repeat match goal with
  | H1 : ?c = Ok ?a, H2 : ?c = Ok ?b |- _ =>
      assert (a = b) by congruence; clear H2; simplify_eq
  | H1 : ?c = Ok _, H2 : ?c = Raises _ |- _ => congruence
  | H1 : ?c = Raises ?a, H2 : ?c = Raises ?b |- _ =>
      assert (a = b) by congruence; clear H2; simplify_eq
  end.

Ltac by_path w msg self :=
  unfold handle;
  destruct (image_callback_cycle w msg self);
  cbv beta iota; same_answers; try congruence.

Lemma handle_decode_error w msg self e :
  imdecode w (ci_data msg) = Raises e ->
  handle w msg self
  = (Ok tt, intake w self,
     [Log ERROR ("Error decoding compressed image: " +:+ exn_str e)]).
Proof. intros Hdec. by_path w msg self. Qed.

Lemma handle_detector_error w msg self cv_image e :
  imdecode w (ci_data msg) = Ok cv_image ->
  predict (model self) cv_image (confidence_threshold self) = Raises e ->
  handle w msg self = (Raises e, intake w self, []).
Proof. intros Hdec Hdet. by_path w msg self. Qed.

Lemma handle_encode_failed w msg self cv_image result buffer :
  imdecode w (ci_data msg) = Ok cv_image ->
  predict (model self) cv_image (confidence_threshold self) = Ok result ->
  imencode w (overlay w (timed w (intake w self)) result)
    = Ok (false, buffer) ->
  handle w msg self
  = (Ok tt, timed w (intake w self),
     [Log ERROR "Failed to encode annotated image."]).
Proof.
  intros Hdec Hdet Henc. by_path w msg self.
  all: match goal with H : image_step _ _ _ _ |- _ => destruct H end;
    congruence.
Qed.

(** The image part determines what it emits. *)
Lemma image_step_functional w msg frame out1 out2 :
  image_step w msg frame out1 -> image_step w msg frame out2 -> out1 = out2.
Proof. intros [] []; congruence. Qed.

Lemma image_step_not_failed w msg frame out buffer :
  image_step w msg frame out -> imencode w frame <> Ok (false, buffer).
Proof. intros []; congruence. Qed.

Lemma handle_batch_error w msg self cv_image result out e :
  imdecode w (ci_data msg) = Ok cv_image ->
  predict (model self) cv_image (confidence_threshold self) = Ok result ->
  image_step w msg (overlay w (timed w (intake w self)) result) out ->
  for_obb (names (model self)) (boxes_of result) [] = Raises e ->
  handle w msg self = (Raises e, timed w (intake w self), out).
Proof.
  intros Hdec Hdet Himg Hfor. by_path w msg self.
  - exfalso. eapply image_step_not_failed; eassumption.
  - f_equal. eapply image_step_functional; eassumption.
Qed.

Lemma handle_transport_error w msg self cv_image result out dets e :
  imdecode w (ci_data msg) = Ok cv_image ->
  predict (model self) cv_image (confidence_threshold self) = Ok result ->
  image_step w msg (overlay w (timed w (intake w self)) result) out ->
  for_obb (names (model self)) (boxes_of result) [] = Ok dets ->
  detection_transport w {| da_header := ci_header msg; detections := dets |}
    = Raises e ->
  handle w msg self = (Raises e, timed w (intake w self), out).
Proof.
  intros Hdec Hdet Himg Hfor Hpub. by_path w msg self.
  - exfalso. eapply image_step_not_failed; eassumption.
  - f_equal. eapply image_step_functional; eassumption.
Qed.

Lemma handle_done w msg self cv_image result out dets :
  imdecode w (ci_data msg) = Ok cv_image ->
  predict (model self) cv_image (confidence_threshold self) = Ok result ->
  image_step w msg (overlay w (timed w (intake w self)) result) out ->
  for_obb (names (model self)) (boxes_of result) [] = Ok dets ->
  detection_transport w {| da_header := ci_header msg; detections := dets |}
    = Ok tt ->
  handle w msg self
  = (Ok tt, timed w (intake w self),
     out ++ [PublishDetections
               {| da_header := ci_header msg; detections := dets |}]).
Proof.
  intros Hdec Hdet Himg Hfor Hpub. by_path w msg self.
  - exfalso. eapply image_step_not_failed; eassumption.
  - do 2 f_equal. eapply image_step_functional; eassumption.
Qed.

(** ** The rate law *)

Lemma ema_law (r prev now : float) :
  (prev >? 0)%float = true ->
  let d := (now - prev)%float in
  ((d >? 0)%float = true -> ema r prev now = (0.9 * r + 0.1 * (1 / d))%float)
  /\ ((d <=? 0)%float = true -> ema r prev now = r).
Proof.
  intros Hprev d. unfold ema. rewrite Hprev. fold d. split.
  - intros ->. now rewrite (float_mul_comm r), (float_mul_comm (1 / d)).
  - intros Hd. now rewrite (float_le_zero_not_gt _ Hd).
Qed.

(** The arrival tracker is updated on every path. *)
Lemma handle_sub_state w msg self :
  sub_prev_time (handle w msg self).1.2 = time_sub w
  /\ sub_fps (handle w msg self).1.2
     = ema (sub_fps self) (sub_prev_time self) (time_sub w).
Proof.
  unfold handle. destruct (image_callback_cycle w msg self); now split.
Qed.

(** The processing tracker is updated once the detector has returned. *)
Lemma handle_proc_state w msg self cv_image result :
  imdecode w (ci_data msg) = Ok cv_image ->
  predict (model self) cv_image (confidence_threshold self) = Ok result ->
  proc_prev_time (handle w msg self).1.2 = time_proc_end w
  /\ proc_fps (handle w msg self).1.2
     = ema (proc_fps self) (proc_prev_time self) (time_proc_end w).
Proof.
  intros Hdec Hdet. unfold handle.
  destruct (image_callback_cycle w msg self); same_answers; now split.
Qed.

(** ... and is left alone before that. *)
Lemma handle_proc_state_early w msg self :
  proc_fps (handle w msg self).1.2 = proc_fps self
  \/ proc_fps (handle w msg self).1.2
     = ema (proc_fps self) (proc_prev_time self) (time_proc_end w).
Proof.
  unfold handle. destruct (image_callback_cycle w msg self); auto.
Qed.

(** C2: every update of a rate tracker, with previous rate [r], previous
    timestamp [t_prev > 0] and current timestamp [t], stores [t] as the
    previous timestamp, and leaves the rate [0.9*r + 0.1*(1/d)] when
    [d = t - t_prev] is positive and [r] when [d <= 0].  The arrival
    tracker is updated by every run of the callback, the processing
    tracker by every run in which the detector returned. *)
Theorem fps_update_law w msg self :
  let self' := (handle w msg self).1.2 in
  (sub_prev_time self' = time_sub w
   /\ ((sub_prev_time self >? 0)%float = true ->
       let d := (time_sub w - sub_prev_time self)%float in
       ((d >? 0)%float = true ->
        sub_fps self' = (0.9 * sub_fps self + 0.1 * (1 / d))%float)
       /\ ((d <=? 0)%float = true -> sub_fps self' = sub_fps self)))
  /\ (forall cv_image result,
        imdecode w (ci_data msg) = Ok cv_image ->
        predict (model self) cv_image (confidence_threshold self)
          = Ok result ->
        proc_prev_time self' = time_proc_end w
        /\ ((proc_prev_time self >? 0)%float = true ->
            let d := (time_proc_end w - proc_prev_time self)%float in
            ((d >? 0)%float = true ->
             proc_fps self' = (0.9 * proc_fps self + 0.1 * (1 / d))%float)
            /\ ((d <=? 0)%float = true -> proc_fps self' = proc_fps self))).
Proof.
  intros self'. subst self'. split.
  - destruct (handle_sub_state w msg self) as [-> ->]. split; [reflexivity|].
    intros Hprev. exact (ema_law _ _ _ Hprev).
  - intros cv_image result Hdec Hdet.
    destruct (handle_proc_state w msg self cv_image result Hdec Hdet)
      as [-> ->].
    split; [reflexivity|]. intros Hprev. exact (ema_law _ _ _ Hprev).
Qed.

(** ** Building the detections *)

Lemma detection_of_ok model_names box det :
  detection_of model_names box = Ok det ->
  int_ (cls box) = Ok (class_id det)
  /\ model_names !! class_id det = Some (class_name det)
  /\ score det = conf box
  /\ (x_center det, y_center det, width det, height det, angle det)
     = xywhr box.
Proof.
  unfold detection_of, getitem. cbv [mbind outcome_bind mret outcome_ret].
  destruct (int_ (cls box)) as [k|]; [|discriminate].
  destruct (model_names !! k) as [name|] eqn:Hk; [|discriminate].
  destruct (xywhr box) as [[[[x y] bw] bh] r].
  intros [= <-]. cbn. auto.
Qed.

(** The loop appends one detection per box, in the order of the boxes. *)
Lemma for_obb_ok model_names boxes acc dets :
  for_obb model_names boxes acc = Ok dets ->
  exists new,
    dets = acc ++ new
    /\ Forall2 (fun box det => detection_of model_names box = Ok det)
         boxes new.
Proof.
  revert acc. induction boxes as [|box rest IH]; intros acc; cbn [for_obb].
  - intros [= <-]. exists []. split; [now rewrite app_nil_r|constructor].
  - cbv [mbind outcome_bind].
    destruct (detection_of model_names box) as [det|] eqn:Hdet;
      [|discriminate].
    intros Hrest. destruct (IH _ Hrest) as (new & -> & Hall).
    exists (det :: new). split; [now rewrite <- app_assoc|].
    now constructor.
Qed.

(** One box that cannot be turned into a detection stops the loop. *)
Lemma for_obb_raises model_names boxes acc box e :
  box ∈ boxes -> detection_of model_names box = Raises e ->
  exists e', for_obb model_names boxes acc = Raises e'.
Proof.
  intros Hin Hbox. revert acc.
  induction Hin as [box rest|box box' rest Hin IH]; intros acc; cbn [for_obb];
    cbv [mbind outcome_bind].
  - rewrite Hbox. eauto.
  - destruct (detection_of model_names box'); eauto.
Qed.

(** ** What a trace publishes *)

Lemma image_step_batches w msg frame out :
  image_step w msg frame out -> batches out = [].
Proof. now intros []. Qed.

Lemma batches_app out1 out2 :
  batches (out1 ++ out2) = batches out1 ++ batches out2.
Proof. apply omap_app. Qed.

Lemma images_app out1 out2 :
  images (out1 ++ out2) = images out1 ++ images out2.
Proof. apply omap_app. Qed.

(** A published batch has the frame's header and holds what the loop made
    of the detector's answer to the configured threshold. *)
Lemma batch_origin w msg self b :
  b ∈ batches (handle w msg self).2 ->
  exists cv_image result,
    imdecode w (ci_data msg) = Ok cv_image
    /\ predict (model self) cv_image (confidence_threshold self) = Ok result
    /\ for_obb (names (model self)) (boxes_of result) [] = Ok (detections b)
    /\ da_header b = ci_header msg.
Proof.
  unfold handle. destruct (image_callback_cycle w msg self); cbn [snd].
  1-3: now intros ?%elem_of_nil.
  1-2: erewrite image_step_batches by eassumption; now intros ?%elem_of_nil.
  rewrite batches_app. erewrite image_step_batches by eassumption.
  cbn. intros ->%list_elem_of_singleton. eauto 10.
Qed.

(** ** Start-up *)

Lemma init_serving (b : boot raster) self :
  (init b).1 = Serving self ->
  proc_prev_time self = 0%float /\ proc_fps self = 0%float
  /\ sub_prev_time self = 0%float /\ sub_fps self = 0%float
  /\ confidence_threshold self
     = get_param b "~confidence_threshold" (PFloat 0.5).
Proof.
  unfold init.
  repeat case_match; cbn [fst]; try discriminate; intros [= <-]; cbn; auto.
Qed.

(** C5: on the first frame after start-up both rate estimates stay at
    their initial zero: [__init__] leaves both previous timestamps at the
    sentinel 0, so neither [> 0] test lets the update through. *)
Theorem first_frame_rates_stay_zero (b : boot raster) self w msg :
  (init b).1 = Serving self ->
  ((sub_prev_time self >? 0)%float = false
   /\ (proc_prev_time self >? 0)%float = false)
  /\ sub_fps self = 0%float /\ proc_fps self = 0%float
  /\ sub_fps (handle w msg self).1.2 = 0%float
  /\ proc_fps (handle w msg self).1.2 = 0%float.
Proof.
  intros (Hpt & Hpf & Hst & Hsf & _)%init_serving.
  rewrite Hpt, Hst. split; [now split|]. do 2 (split; [assumption|]). split.
  - destruct (handle_sub_state w msg self) as [_ ->].
    now rewrite Hst, Hsf.
  - destruct (handle_proc_state_early w msg self) as [-> | ->];
      [assumption|]. now rewrite Hpt, Hpf.
Qed.

(** ** Failure of the re-encoding *)

(** C1, as the code has it: when the encoder reports failure ([ret] is
    false) on a decoded and inferred frame, line 110 returns from the
    whole callback: the error is logged and nothing is published, the
    detection batch included. *)
Theorem encode_failure_drops_detection_batch
    w msg self cv_image result buffer :
  imdecode w (ci_data msg) = Ok cv_image ->
  predict (model self) cv_image (confidence_threshold self) = Ok result ->
  imencode w (overlay w (timed w (intake w self)) result)
    = Ok (false, buffer) ->
  handle w msg self
  = (Ok tt, timed w (intake w self),
     [Log ERROR "Failed to encode annotated image."])
  /\ images (handle w msg self).2 = []
  /\ batches (handle w msg self).2 = [].
Proof.
  intros Hdec Hdet Henc.
  rewrite (handle_encode_failed w msg self cv_image result buffer) by done.
  now repeat split.
Qed.

(** ** Frames without detections *)

(** Where the image part falls through, a frame without detections
    yields a batch with the empty sequence. *)
Lemma empty_batch_published w msg self cv_image result out :
  imdecode w (ci_data msg) = Ok cv_image ->
  predict (model self) cv_image (confidence_threshold self) = Ok result ->
  boxes_of result = [] ->
  image_step w msg (overlay w (timed w (intake w self)) result) out ->
  detection_transport w {| da_header := ci_header msg; detections := [] |}
    = Ok tt ->
  batches (handle w msg self).2
  = [{| da_header := ci_header msg; detections := [] |}].
Proof.
  intros Hdec Hdet Hnone Himg Hpub.
  rewrite (handle_done w msg self cv_image result out []); try done.
  - cbn [snd]. rewrite batches_app.
    now rewrite (image_step_batches _ _ _ _ Himg).
  - now rewrite Hnone.
Qed.

(** C3, as the code has it: a decoded frame whose detector output holds
    no detection, on which the encoder reports failure, gets no batch at
    all: the [return] of line 110 comes before the batch is built. *)
Theorem empty_batch_lost_on_encode_failure
    w msg self cv_image result buffer :
  imdecode w (ci_data msg) = Ok cv_image ->
  predict (model self) cv_image (confidence_threshold self) = Ok result ->
  boxes_of result = [] ->
  imencode w (overlay w (timed w (intake w self)) result)
    = Ok (false, buffer) ->
  (handle w msg self).1.1 = Ok tt
  /\ batches (handle w msg self).2 = [].
Proof.
  intros Hdec Hdet _ Henc.
  rewrite (handle_encode_failed w msg self cv_image result buffer) by done.
  now split.
Qed.

(** ** A decoder that raises *)

(** A frame on which every external call succeeds publishes the annotated
    image, then the batch. *)
Lemma handle_valid w msg self cv_image result buffer dets :
  imdecode w (ci_data msg) = Ok cv_image ->
  predict (model self) cv_image (confidence_threshold self) = Ok result ->
  imencode w (overlay w (timed w (intake w self)) result)
    = Ok (true, buffer) ->
  image_transport w (annotated_msg msg buffer) = Ok tt ->
  for_obb (names (model self)) (boxes_of result) [] = Ok dets ->
  detection_transport w {| da_header := ci_header msg; detections := dets |}
    = Ok tt ->
  handle w msg self
  = (Ok tt, timed w (intake w self),
     [PublishImage (annotated_msg msg buffer);
      PublishDetections
        {| da_header := ci_header msg; detections := dets |}]).
Proof.
  intros Hdec Hdet Henc Hpub Hfor Hdpub.
  now rewrite (handle_done w msg self cv_image result
                 [PublishImage (annotated_msg msg buffer)] dets)
    by eauto using image_step.
Qed.

(** X15: when the decoder raises (as OpenCV does on an empty payload),
    the error is logged and the notification dropped: the callback
    returns normally, nothing is published on either channel, and the
    node goes on; a following frame on which everything succeeds is
    processed and publishes its annotated image and its batch. *)
Theorem decode_failure_skips_frame w msg self e :
  imdecode w (ci_data msg) = Raises e ->
  let logged :=
    Log ERROR ("Error decoding compressed image: " +:+ exn_str e) in
  handle w msg self = (Ok tt, intake w self, [logged])
  /\ images (handle w msg self).2 = []
  /\ batches (handle w msg self).2 = []
  /\ (forall rest,
        serve self ((w, msg) :: rest)
        = (let '(r, self', out) := serve (intake w self) rest in
           (r, self', logged :: out)))
  /\ (forall w2 msg2 cv_image result buffer dets,
        let st := timed w2 (intake w2 (intake w self)) in
        let batch := {| da_header := ci_header msg2; detections := dets |} in
        imdecode w2 (ci_data msg2) = Ok cv_image ->
        predict (model self) cv_image (confidence_threshold self)
          = Ok result ->
        imencode w2 (overlay w2 st result) = Ok (true, buffer) ->
        image_transport w2 (annotated_msg msg2 buffer) = Ok tt ->
        for_obb (names (model self)) (boxes_of result) [] = Ok dets ->
        detection_transport w2 batch = Ok tt ->
        serve self [(w, msg); (w2, msg2)]
        = (Ok tt, st,
           [logged; PublishImage (annotated_msg msg2 buffer);
            PublishDetections batch])).
Proof.
  intros Hdec logged.
  pose proof (handle_decode_error w msg self e Hdec) as Hbad.
  fold logged in Hbad.
  assert (Hserve : forall rest,
    serve self ((w, msg) :: rest)
    = (let '(r, self', out) := serve (intake w self) rest in
       (r, self', logged :: out))).
  { intros rest. cbn [serve]. rewrite Hbad.
    now destruct (serve (intake w self) rest) as [[r self'] out]. }
  rewrite Hbad. repeat split; [exact Hserve|].
  intros w2 msg2 cv_image result buffer dets st batch
    Hdec2 Hdet2 Henc2 Hpub2 Hfor2 Hdpub2.
  rewrite Hserve. cbn [serve].
  now rewrite
    (handle_valid w2 msg2 (intake w self) cv_image result buffer dets).
Qed.

(** ** A payload the decoder returns on *)

(** C6, as the code has it: the decode step fails only by raising.
    When the decoder returns, whatever it returns (the [None] OpenCV
    gives for bytes that are no image included), lines 78-80 are not
    run: no decode error is logged, the cycle does not abort, and the
    value goes to the detector, which decides the cycle.  If the detector
    raises, the exception leaves the callback with nothing logged; if it
    answers and the rest succeeds, the annotated image and the batch are
    published under the header of the notification. *)
Theorem undecoded_payload_reaches_detector w msg self cv_image :
  imdecode w (ci_data msg) = Ok cv_image ->
  (forall e,
     Log ERROR ("Error decoding compressed image: " +:+ exn_str e)
     ∉ (handle w msg self).2)
  /\ (forall e,
        predict (model self) cv_image (confidence_threshold self)
          = Raises e ->
        handle w msg self = (Raises e, intake w self, []))
  /\ (forall result buffer dets,
        let st := timed w (intake w self) in
        let batch := {| da_header := ci_header msg; detections := dets |} in
        predict (model self) cv_image (confidence_threshold self)
          = Ok result ->
        imencode w (overlay w st result) = Ok (true, buffer) ->
        image_transport w (annotated_msg msg buffer) = Ok tt ->
        for_obb (names (model self)) (boxes_of result) [] = Ok dets ->
        detection_transport w batch = Ok tt ->
        handle w msg self
        = (Ok tt, st,
           [PublishImage (annotated_msg msg buffer);
            PublishDetections batch])).
Proof.
  intros Hdec. split; [|split].
  - intros e. unfold handle.
    destruct (image_callback_cycle w msg self); cbn [snd]; same_answers;
      try match goal with H : image_step _ _ _ _ |- _ => destruct H end;
      rewrite ?elem_of_app, ?elem_of_cons, ?elem_of_nil;
      intros Hin; decompose [or] Hin; try contradiction; discriminate.
  - intros e Hdet. now apply handle_detector_error with cv_image.
  - intros result buffer dets st batch Hdet Henc Hpub Hfor Hdpub.
    now apply handle_valid with cv_image result.
Qed.

(** ** The content of the batch *)

(** Every detection of a published batch is its box copied: the loop
    keeps the detector's order, the five numbers and the confidence go
    over as they are, the class id is the truncated [cls] and the class
    name its entry in the model's table. *)
Lemma batch_copies_boxes w msg self b :
  b ∈ batches (handle w msg self).2 ->
  exists cv_image result,
    imdecode w (ci_data msg) = Ok cv_image
    /\ predict (model self) cv_image (confidence_threshold self) = Ok result
    /\ Forall2
         (fun box det =>
            int_ (cls box) = Ok (class_id det)
            /\ names (model self) !! class_id det = Some (class_name det)
            /\ score det = conf box
            /\ (x_center det, y_center det, width det, height det, angle det)
               = xywhr box)
         (boxes_of result) (detections b).
Proof.
  intros (cv_image & result & Hdec & Hdet & Hfor & _)%batch_origin.
  exists cv_image, result. do 2 (split; [assumption|]).
  destruct (for_obb_ok _ _ _ _ Hfor) as (new & -> & Hall). cbn [app].
  eapply Forall2_impl; [exact Hall|]. intros box det. apply detection_of_ok.
Qed.

(** C7: for a frame with header [{id=7, t=100.0}] and the single detector
    result [{cls=2, conf=0.83, xywhr=[50,60,20,10,0.3]}] at threshold 0.5,
    the published batch has that header and the one detection
    [{class_id=2, class_name=names[2], score=0.83, x_center=50,
    y_center=60, width=20, height=10, angle=0.3}], and it is published
    whenever the image part falls through and the transport takes it; in
    general the five numbers of each detection of a published batch are
    those of the detector's box at the same position. *)
Theorem end_to_end_scenario :
  (forall w msg self cv_image result name,
     let header := {| hdr_id := 7; hdr_stamp := 100.0 |} in
     let expected :=
       {| da_header := header;
          detections :=
            [{| class_id := 2; class_name := name; score := 0.83;
                x_center := 50; y_center := 60; width := 20; height := 10;
                angle := 0.3 |}] |} in
     ci_header msg = header ->
     confidence_threshold self = PFloat 0.5 ->
     imdecode w (ci_data msg) = Ok cv_image ->
     predict (model self) cv_image (PFloat 0.5) = Ok result ->
     obb result
     = Some [{| cls := 2; conf := 0.83;
                xywhr := (50, 60, 20, 10, 0.3)%float |}] ->
     names (model self) !! 2%Z = Some name ->
     (forall b, b ∈ batches (handle w msg self).2 -> b = expected)
     /\ (forall out,
           image_step w msg (overlay w (timed w (intake w self)) result) out ->
           detection_transport w expected = Ok tt ->
           handle w msg self
           = (Ok tt, timed w (intake w self),
              out ++ [PublishDetections expected])))
  /\ (forall w msg self b,
        b ∈ batches (handle w msg self).2 ->
        exists cv_image result,
          imdecode w (ci_data msg) = Ok cv_image
          /\ predict (model self) cv_image (confidence_threshold self)
             = Ok result
          /\ Forall2
               (fun box det =>
                  (x_center det, y_center det, width det, height det,
                   angle det) = xywhr box)
               (boxes_of result) (detections b)).
Proof.
  split.
  - intros w msg self cv_image result name header expected
      Hhdr Hthr Hdec Hdet Hobb Hname.
    rewrite <- Hthr in Hdet.
    assert (Hfor : for_obb (names (model self)) (boxes_of result) []
                   = Ok (detections expected)).
    { unfold boxes_of. rewrite Hobb. cbn [default from_option id for_obb].
      unfold detection_of, getitem.
      change (int_ (cls _)) with (Ok (A:=Z) 2%Z).
      cbv [mbind outcome_bind mret outcome_ret]. now rewrite Hname. }
    split.
    + intros b (cv' & result' & Hdec' & Hdet' & Hfor' & Hhdr')%batch_origin.
      same_answers. destruct b as [h ds]. cbn [da_header detections] in *.
      subst expected. cbn [detections] in *. congruence.
    + intros out Himg Hpub.
      rewrite (handle_done w msg self cv_image result out
                 (detections expected)); try done.
      * now rewrite Hhdr.
      * now rewrite Hhdr.
  - intros w msg self b
      (cv_image & result & Hdec & Hdet & Hall)%batch_copies_boxes.
    exists cv_image, result. do 2 (split; [assumption|]).
    eapply Forall2_impl; [exact Hall|]. now intros box det (_ & _ & _ & ?).
Qed.

(** ** The class name *)

(** C8: the class name of a detection is the entry of the model's name
    table at the int-cast class id, looked up directly: where the id is
    a key of the table the detection carries that entry; where it is not,
    the lookup raises [KeyError] and no name is put in its place, so the
    loop stops, the exception leaves the callback once the image part has
    fallen through, and no batch is published for the frame. *)
Theorem class_name_direct_lookup :
  (forall (model_names : gmap Z string) box k,
     int_ (cls box) = Ok k ->
     match model_names !! k with
     | Some name =>
         exists det,
           detection_of model_names box = Ok det
           /\ class_id det = k /\ class_name det = name
     | None =>
         detection_of model_names box = Raises (Exn "KeyError" (pretty k))
     end)
  /\ (forall w msg self cv_image result box k,
        imdecode w (ci_data msg) = Ok cv_image ->
        predict (model self) cv_image (confidence_threshold self)
          = Ok result ->
        box ∈ boxes_of result ->
        int_ (cls box) = Ok k ->
        names (model self) !! k = None ->
        batches (handle w msg self).2 = []
        /\ (forall out,
              image_step w msg
                (overlay w (timed w (intake w self)) result) out ->
              exists e,
                handle w msg self = (Raises e, timed w (intake w self), out))).
Proof.
  assert (Hone : forall (model_names : gmap Z string) box k,
    int_ (cls box) = Ok k ->
    match model_names !! k with
    | Some name =>
        exists det,
          detection_of model_names box = Ok det
          /\ class_id det = k /\ class_name det = name
    | None =>
        detection_of model_names box = Raises (Exn "KeyError" (pretty k))
    end).
  { intros model_names box k Hint. unfold detection_of, getitem.
    rewrite Hint. cbv [mbind outcome_bind mret outcome_ret].
    destruct (model_names !! k) as [name|]; [|reflexivity].
    destruct (xywhr box) as [[[[x y] bw] bh] r]. eauto. }
  split; [exact Hone|].
  intros w msg self cv_image result box k Hdec Hdet Hin Hint Hnone.
  specialize (Hone (names (model self)) box k Hint). rewrite Hnone in Hone.
  destruct (for_obb_raises _ _ [] _ _ Hin Hone) as [e Hfor].
  split.
  - destruct (batches (handle w msg self).2) as [|b bs] eqn:Hb;
      [reflexivity|].
    assert (Hin' : b ∈ batches (handle w msg self).2)
      by (rewrite Hb; left).
    apply batch_origin in Hin' as (cv' & result' & ? & ? & Hfor' & _).
    same_answers.
  - intros out Himg. exists e.
    now apply handle_batch_error with cv_image result.
Qed.

(** ** The confidence threshold *)

(** The callback never assigns the configuration attributes. *)
Lemma handle_keeps_configuration w msg self :
  confidence_threshold (handle w msg self).1.2 = confidence_threshold self
  /\ model (handle w msg self).1.2 = model self.
Proof.
  unfold handle. destruct (image_callback_cycle w msg self); now split.
Qed.

(** C9: the confidence threshold is read once, in [__init__], with 0.5
    as the value when the parameter is not set; no run of the callback
    changes it; every published batch is built from the answer of the
    model called with exactly this value; so with a detector that returns
    no box below the threshold it is given, no detection below the
    configured threshold is in a published batch. *)
Theorem threshold_passed_unmodified :
  (forall (b : boot raster) self,
     (init b).1 = Serving self ->
     confidence_threshold self
     = match param_server b !! "~confidence_threshold" with
       | Some v => v
       | None => PFloat 0.5
       end)
  /\ (forall w msg self,
        confidence_threshold (handle w msg self).1.2
        = confidence_threshold self)
  /\ (forall w msg self b,
        b ∈ batches (handle w msg self).2 ->
        exists cv_image result,
          imdecode w (ci_data msg) = Ok cv_image
          /\ predict (model self) cv_image (confidence_threshold self)
             = Ok result
          /\ for_obb (names (model self)) (boxes_of result) []
             = Ok (detections b))
  /\ (forall w msg self thr,
        confidence_threshold self = PFloat thr ->
        (forall image result,
           predict (model self) image (PFloat thr) = Ok result ->
           Forall (fun box => (conf box <? thr)%float = false)
                  (boxes_of result)) ->
        forall b,
          b ∈ batches (handle w msg self).2 ->
          Forall (fun det => (score det <? thr)%float = false)
                 (detections b)).
Proof.
  split; [|split; [|split]].
  - intros b self (_ & _ & _ & _ & ->)%init_serving.
    unfold get_param. now destruct (param_server b !! _).
  - intros w msg self. apply handle_keeps_configuration.
  - intros w msg self b
      (cv_image & result & Hdec & Hdet & Hfor & _)%batch_origin.
    eauto.
  - intros w msg self thr Hthr Hcontract b
      (cv_image & result & Hdec & Hdet & Hall)%batch_copies_boxes.
    rewrite Hthr in Hdet. specialize (Hcontract _ _ Hdet).
    revert Hcontract. generalize (boxes_of result) (detections b) Hall.
    induction 1 as [|box det boxes dets (_ & _ & Hscore & _) _ IH];
      intros Hboxes; [constructor|].
    apply Forall_cons in Hboxes as [Hbox Hboxes].
    constructor; [now rewrite Hscore|auto].
Qed.

(** ** Headers and pairing *)

(** C4, as the code has it: whatever a cycle publishes carries the header
    of the frame that triggered it, so the headers of a published pair
    are the same; a cycle publishes at most one annotated image and at
    most one batch; and in a cycle that ends without an exception leaving
    the callback, a published annotated image comes with exactly one
    batch.  (The image goes out at line 112, before the batch is handed
    over: a [publish] of line 140 that raises leaves it without a
    batch.) *)
Theorem published_messages_carry_header w msg self :
  let r := handle w msg self in
  Forall (fun m => ci_header m = ci_header msg) (images r.2)
  /\ Forall (fun b => da_header b = ci_header msg) (batches r.2)
  /\ (forall m b,
        m ∈ images r.2 -> b ∈ batches r.2 -> ci_header m = da_header b)
  /\ length (images r.2) <= 1
  /\ length (batches r.2) <= 1
  /\ (r.1.1 = Ok tt -> images r.2 <> [] -> length (batches r.2) = 1).
Proof.
  intros r.
  assert (Himages : Forall (fun m => ci_header m = ci_header msg) (images r.2)
                    /\ length (images r.2) <= 1).
  { subst r. unfold handle.
    destruct (image_callback_cycle w msg self); cbn [snd];
      rewrite ?images_app;
      try match goal with H : image_step _ _ _ _ |- _ => destruct H end;
      cbn; repeat constructor. }
  assert (Hbatches : Forall (fun b => da_header b = ci_header msg) (batches r.2)
                     /\ length (batches r.2) <= 1
                     /\ (r.1.1 = Ok tt -> images r.2 <> [] ->
                         length (batches r.2) = 1)).
  { subst r. unfold handle.
    destruct (image_callback_cycle w msg self); cbn [fst snd];
      rewrite ?images_app, ?batches_app;
      try match goal with H : image_step _ _ _ _ |- _ => destruct H end;
      cbn; repeat split; try discriminate; try congruence;
      repeat constructor. }
  destruct Himages as [Himg ?], Hbatches as (Hbat & ? & ?).
  repeat split; try assumption.
  intros m b Hm Hb.
  rewrite Forall_forall in Himg. rewrite Forall_forall in Hbat.
  now rewrite (Himg m Hm), (Hbat b Hb).
Qed.

(** ** An exception in the image part *)

(** C10: an exception raised while encoding or publishing the annotated
    image (not a false flag of the encoder) is caught and logged inside
    the callback, and the detection batch of the frame is still built and
    published and the callback returns normally: the detections part
    (lines 116-140) runs as after a published image, converting the
    boxes and handing the batch to the transport.  The two further
    conjuncts say what that part does when it raises itself. *)
Theorem image_exception_is_contained w msg self cv_image result e :
  let st := timed w (intake w self) in
  let logged :=
    Log ERROR ("Error publishing annotated image: " +:+ exn_str e) in
  imdecode w (ci_data msg) = Ok cv_image ->
  predict (model self) cv_image (confidence_threshold self) = Ok result ->
  (imencode w (overlay w st result) = Raises e
   \/ exists buffer,
        imencode w (overlay w st result) = Ok (true, buffer)
        /\ image_transport w (annotated_msg msg buffer) = Raises e) ->
  (forall dets,
     let batch := {| da_header := ci_header msg; detections := dets |} in
     for_obb (names (model self)) (boxes_of result) [] = Ok dets ->
     detection_transport w batch = Ok tt ->
     handle w msg self = (Ok tt, st, [logged; PublishDetections batch]))
  /\ (forall e',
        for_obb (names (model self)) (boxes_of result) [] = Raises e' ->
        handle w msg self = (Raises e', st, [logged]))
  /\ (forall dets e',
        for_obb (names (model self)) (boxes_of result) [] = Ok dets ->
        detection_transport w
          {| da_header := ci_header msg; detections := dets |} = Raises e' ->
        handle w msg self = (Raises e', st, [logged])).
Proof.
  intros st logged Hdec Hdet Hexn.
  assert (Himg : image_step w msg (overlay w st result) [logged]).
  { destruct Hexn as [Henc | (buffer & Henc & Hpub)].
    - now apply image_encode_raised.
    - now apply image_publish_raised with buffer. }
  repeat split.
  - intros dets batch Hfor Hpub.
    now rewrite (handle_done w msg self cv_image result [logged] dets).
  - intros e' Hfor.
    now apply handle_batch_error with cv_image result.
  - intros dets e' Hfor Hpub.
    now apply handle_transport_error with cv_image result dets.
Qed.

(** * More of the node *)

(** ** [__init__]: when the node comes up *)

(** [__init__] publishes nothing and logs no error line. *)
Lemma init_trace_quiet (b : boot raster) :
  images (init b).2 = [] /\ batches (init b).2 = [] /\ errors (init b).2 = [].
Proof.
  unfold init. repeat case_match; cbn [snd];
    unfold images, batches, errors; rewrite ?omap_app; now cbn.
Qed.

(** X1: [__init__] ends with the subscriber and publishers registered
    exactly when the engine file can be loaded, after an export of the
    .pt model that succeeded when the engine file was missing; the node
    then holds the configured parameters, the four FPS attributes at 0
    and the loaded engine. *)
Theorem init_serves_exactly_when_engine_loads (b : boot raster) self :
  let engine := get_param b "~engine_model_path" (PStr "") in
  let pt := get_param b "~pt_model_path" (PStr "") in
  (init b).1 = Serving self <->
  exists loaded,
    load b engine = Ok loaded
    /\ self = configured b loaded
    /\ (path_exists b engine = true
        \/ (path_exists b engine = false
            /\ path_exists b pt = true
            /\ exists pt_model,
                 load b pt = Ok pt_model /\ export b pt_model = Ok tt)).
Proof.
  intros engine pt. unfold init.
  change (get_param b "~engine_model_path" (PStr "")) with engine.
  change (get_param b "~pt_model_path" (PStr "")) with pt.
  destruct (path_exists b engine) eqn:Hengine; cbn [negb].
  - destruct (load b engine) as [loaded|e] eqn:Hload; cbn [fst]; split.
    + intros [= <-]. exists loaded. repeat split. now left.
    + intros (loaded' & [= <-] & -> & _). reflexivity.
    + discriminate.
    + intros (? & [=] & _).
  - destruct (path_exists b pt) eqn:Hpt; cbn [negb].
    2:{ cbn [fst]. split; [discriminate|].
        intros (? & _ & _ & [[=] | (_ & [=] & _)]). }
    destruct (load b pt) as [pt_model|e] eqn:Hloadpt.
    2:{ cbn [fst]. split; [discriminate|].
        intros (? & _ & _ & [[=] | (_ & _ & ? & [=] & _)]). }
    destruct (export b pt_model) as [[]|e] eqn:Hexport.
    2:{ cbn [fst]. split; [discriminate|].
        intros (? & _ & _ & [[=] | (_ & _ & pt' & [= <-] & Hx)]).
        rewrite Hexport in Hx. discriminate. }
    destruct (load b engine) as [loaded|e] eqn:Hload; cbn [fst]; split.
    + intros [= <-]. exists loaded. repeat split. right. eauto 6.
    + intros (loaded' & [= <-] & -> & _). reflexivity.
    + discriminate.
    + intros (? & [=] & _).
Qed.

(** X2: [__init__] logs a fatal line exactly when it returns early, one
    line then and the last of its trace; and it ends serving exactly when
    the last line of its trace is "initialized and ready". *)
Theorem init_fatal_exactly_when_idle (b : boot raster) :
  ((init b).1 = Idle <-> length (fatals (init b).2) = 1)
  /\ ((init b).1 = Idle <-> exists text, last (init b).2 = Some (Log FATAL text))
  /\ ((exists self, (init b).1 = Serving self) <->
      last (init b).2
      = Some (Log INFO "YOLO OBB Ultralytics node initialized and ready.")).
Proof.
  unfold init. repeat case_match; cbn [fst snd];
    unfold fatals; rewrite ?omap_app, ?last_app; cbn [omap last app length];
    (split; [|split]); split;
    try discriminate; try reflexivity; eauto;
    try (intros [? [=]]); try (intros [=]).
Qed.

(** X3: the two failures of start-up end differently.  An engine file
    that is there but does not load is caught: one fatal line with the
    error and an early return, no exception.  A .pt model that does not
    load, or an export that fails, is not caught: the exception leaves
    [__init__] and no fatal line is logged. *)
Theorem init_failure_modes (b : boot raster) e :
  let engine := get_param b "~engine_model_path" (PStr "") in
  let pt := get_param b "~pt_model_path" (PStr "") in
  (path_exists b engine = true ->
   load b engine = Raises e ->
   init b
   = (Idle,
      [Log INFO ("Loading TensorRT engine from " +:+ str b engine);
       Log FATAL ("Failed to load YOLO-OBB model. Error: " +:+ exn_str e)]))
  /\ (path_exists b engine = false ->
      path_exists b pt = true ->
      (load b pt = Raises e
       \/ exists pt_model,
            load b pt = Ok pt_model /\ export b pt_model = Raises e) ->
      (init b).1 = Crashed e
      /\ (init b).2
         = [Log WARN ("TensorRT engine not found at " +:+ str b engine
                      +:+ ". Exporting from .pt model...");
            Log INFO ("Loading .pt model from " +:+ str b pt
                      +:+ " for export.")]).
Proof.
  intros engine pt. unfold init.
  change (get_param b "~engine_model_path" (PStr "")) with engine.
  change (get_param b "~pt_model_path" (PStr "")) with pt.
  split.
  - intros -> ->. reflexivity.
  - intros -> -> [-> | (pt_model & -> & ->)]; now split.
Qed.

(** X4: when the engine file exists nothing is exported: [__init__]
    ends the same way, with the same trace, whatever the export would
    have done. *)
Theorem init_skips_export_when_engine_exists (b : boot raster) export' :
  path_exists b (get_param b "~engine_model_path" (PStr "")) = true ->
  init b
  = init {| param_server := param_server b;
            path_exists := path_exists b;
            load := load b;
            export := export';
            str := str b |}.
Proof.
  intros Hengine. unfold init, get_param in *.
  cbn [param_server path_exists load export str].
  now rewrite Hengine.
Qed.

(** ** The process *)

(** A node that serves has logged that it is ready, last. *)
Lemma init_serving_ready (b : boot raster) self :
  (init b).1 = Serving self ->
  exists pre,
    (init b).2
    = pre ++ [Log INFO "YOLO OBB Ultralytics node initialized and ready."].
Proof.
  unfold init. repeat case_match; cbn [fst snd]; try discriminate; intros _.
  all: match goal with
       | |- exists pre, ?l ++ [?a; ?last] = _ =>
           exists (l ++ [a]); now rewrite <- app_assoc
       end.
Qed.

(** X5: the process publishes, or logs an error of the callback, only
    after [__init__] went through to the end and logged that the node is
    ready; after an early return of [__init__] the process stays up and
    its whole trace is that of [__init__], whatever arrives. *)
Theorem main_publishes_only_when_serving (b : boot raster) inbox :
  (images (main b inbox).2 <> [] \/ batches (main b inbox).2 <> []
   \/ errors (main b inbox).2 <> [] ->
   (exists self, (init b).1 = Serving self)
   /\ Log INFO "YOLO OBB Ultralytics node initialized and ready."
      ∈ (main b inbox).2)
  /\ ((init b).1 = Idle -> main b inbox = (Ok tt, (init b).2)).
Proof.
  pose proof (init_trace_quiet b) as (Himg & Hbat & Herr).
  pose proof (init_serving_ready b) as Hready.
  unfold main. destruct (init b) as [[self| |e] out] eqn:Hinit;
    cbn [fst snd] in *.
  - destruct (serve self inbox) as [[r self'] out'] eqn:Hserve. cbn [snd].
    split; [|discriminate]. intros _. split; [eauto|].
    destruct (Hready self eq_refl) as [pre ->].
    rewrite !elem_of_app. left; right. apply list_elem_of_singleton.
    reflexivity.
  - split; [|reflexivity]. rewrite Himg, Hbat, Herr. now intros [|[|]].
  - split; [|discriminate]. rewrite Himg, Hbat, Herr. now intros [|[|]].
Qed.

(** ** [image_callback]: the paths the claims leave out *)

(** X6: the detector call is not guarded.  When it raises, the exception
    leaves the callback, the trace of the cycle is empty (nothing is
    published and nothing is logged), the arrival tracker has taken the
    new time and the processing tracker is untouched. *)
Theorem detector_exception_escapes w msg self cv_image e :
  imdecode w (ci_data msg) = Ok cv_image ->
  predict (model self) cv_image (confidence_threshold self) = Raises e ->
  let r := handle w msg self in
  r.1.1 = Raises e
  /\ r.2 = []
  /\ sub_prev_time r.1.2 = time_sub w
  /\ proc_prev_time r.1.2 = proc_prev_time self
  /\ proc_fps r.1.2 = proc_fps self.
Proof.
  intros Hdec Hdet r. subst r.
  rewrite (handle_detector_error w msg self cv_image e Hdec Hdet).
  now repeat split.
Qed.

(** X7: the processing tracker moves only in a cycle whose frame decoded
    and whose inference returned; in every other cycle its rate and its
    previous timestamp are what they were. *)
Theorem processing_tracker_needs_inference w msg self :
  (exists cv_image result,
     imdecode w (ci_data msg) = Ok cv_image
     /\ predict (model self) cv_image (confidence_threshold self) = Ok result)
  \/ (proc_prev_time (handle w msg self).1.2 = proc_prev_time self
      /\ proc_fps (handle w msg self).1.2 = proc_fps self).
Proof.
  unfold handle. destruct (image_callback_cycle w msg self); cbn [fst snd];
    first [ right; now split | left; eauto ].
Qed.

(** X8: a published batch is never partial: it holds exactly one
    detection for every box the detector returned, in the same order,
    each with the int-cast class id and the confidence of its box. *)
Theorem batch_is_complete w msg self b :
  b ∈ batches (handle w msg self).2 ->
  exists cv_image result,
    imdecode w (ci_data msg) = Ok cv_image
    /\ predict (model self) cv_image (confidence_threshold self) = Ok result
    /\ length (detections b) = length (boxes_of result)
    /\ Forall2
         (fun box det =>
            int_ (cls box) = Ok (class_id det) /\ score det = conf box)
         (boxes_of result) (detections b).
Proof.
  intros (cv_image & result & Hdec & Hdet & Hall)%batch_copies_boxes.
  exists cv_image, result. do 2 (split; [assumption|]). split.
  - symmetry. exact (Forall2_length _ _ _ Hall).
  - eapply Forall2_impl; [exact Hall|]. now intros box det (? & _ & ? & _).
Qed.

(** X10: in every cycle the annotated image is published or its absence
    is on record: published images and logged errors together are at
    most one, and exactly one when the callback returns normally; and a
    batch, when one is published, is the last event of its cycle, after
    the image. *)
Theorem image_or_one_error w msg self :
  let r := handle w msg self in
  length (images r.2) + length (errors r.2) <= 1
  /\ (r.1.1 = Ok tt -> length (images r.2) + length (errors r.2) = 1)
  /\ (forall b,
        b ∈ batches r.2 ->
        exists pre,
          r.2 = pre ++ [PublishDetections b]
          /\ batches pre = []
          /\ length pre = 1).
Proof.
  intros r. subst r. unfold handle.
  destruct (image_callback_cycle w msg self); cbn [fst snd];
    try match goal with H : image_step _ _ _ _ |- _ => destruct H end;
    unfold images, errors, batches; rewrite ?omap_app; cbn;
    (split; [lia|split; [try discriminate; try reflexivity|]]);
    intros b Hb;
    try (apply elem_of_nil in Hb; contradiction);
    apply list_elem_of_singleton in Hb as ->;
    eexists [_]; now repeat split.
Qed.

(** ** A run of the node *)

(** The callback assigns none of the attributes [__init__] configured. *)
Lemma handle_keeps_attributes w msg self :
  let self' := (handle w msg self).1.2 in
  model self' = model self
  /\ confidence_threshold self' = confidence_threshold self
  /\ engine_model_path self' = engine_model_path self
  /\ input_topic self' = input_topic self
  /\ obb_topic self' = obb_topic self
  /\ annotated_image_topic self' = annotated_image_topic self.
Proof.
  unfold handle. destruct (image_callback_cycle w msg self); now repeat split.
Qed.

(** What one notification puts on each channel: nothing, or one message
    with the header of the notification. *)
Lemma handle_channels w msg self :
  (images (handle w msg self).2 = []
   \/ exists m, images (handle w msg self).2 = [m]
                /\ ci_header m = ci_header msg)
  /\ (batches (handle w msg self).2 = []
      \/ exists b, batches (handle w msg self).2 = [b]
                   /\ da_header b = ci_header msg).
Proof.
  unfold handle. destruct (image_callback_cycle w msg self); cbn [snd];
    try match goal with H : image_step _ _ _ _ |- _ => destruct H end;
    unfold images, batches; rewrite ?omap_app; cbn; split; eauto.
Qed.

(** The dispatch ends normally whatever the callbacks raised: none of
    their exceptions reaches the main block. *)
Lemma serve_ends_normally inbox self : (serve self inbox).1.1 = Ok tt.
Proof.
  revert self. induction inbox as [|[w msg] rest IH]; intros self;
    cbn [serve]; [reflexivity|].
  destruct (handle w msg self) as [[r1 self1] out1].
  specialize (IH self1). now destruct (serve self1 rest) as [[r self2] out2].
Qed.

(** X11: over a whole run, whatever the frames and whatever fails, the
    node keeps the model it loaded and the parameters it read at
    start-up: the detector, the threshold, the engine path and the three
    topics after the run are those before it. *)
Theorem serve_keeps_configuration inbox self :
  let self' := (serve self inbox).1.2 in
  model self' = model self
  /\ confidence_threshold self' = confidence_threshold self
  /\ engine_model_path self' = engine_model_path self
  /\ input_topic self' = input_topic self
  /\ obb_topic self' = obb_topic self
  /\ annotated_image_topic self' = annotated_image_topic self.
Proof.
  revert self. induction inbox as [|[w msg] rest IH]; intros self;
    cbn [serve]; [now repeat split|].
  pose proof (handle_keeps_attributes w msg self) as Hone.
  destruct (handle w msg self) as [[r1 self1] out1]; cbn [fst snd] in *.
  specialize (IH self1).
  destruct (serve self1 rest) as [[r self2] out2]. cbn [fst snd] in *.
  destruct Hone as (? & ? & ? & ? & ? & ?), IH as (? & ? & ? & ? & ? & ?).
  repeat split; congruence.
Qed.

(** X12: the messages of a run follow the arrivals: on each channel the
    headers of the published messages are, in order and without
    repetition of a notification, headers of the notifications of the
    inbox; nothing is published out of order, twice, or under a header
    that did not arrive. *)
Theorem serve_publishes_in_arrival_order inbox self :
  sublist (ci_header <$> images (serve self inbox).2) (arrivals inbox)
  /\ sublist (da_header <$> batches (serve self inbox).2) (arrivals inbox).
Proof.
  revert self. induction inbox as [|[w msg] rest IH]; intros self;
    cbn [serve]; [split; constructor|].
  pose proof (handle_channels w msg self) as [Himg Hbat].
  unfold arrivals. cbn [fmap list_fmap snd]. fold (arrivals rest).
  destruct (handle w msg self) as [[r1 self1] out1]; cbn [fst snd] in *.
  destruct (IH self1) as [IHimg IHbat].
  destruct (serve self1 rest) as [[r self2] out2]. cbn [fst snd] in *.
  rewrite images_app, batches_app, !fmap_app. split.
  - destruct Himg as [-> | (m & -> & <-)];
      [now apply sublist_cons | now apply sublist_skip].
  - destruct Hbat as [-> | (b & -> & <-)];
      [now apply sublist_cons | now apply sublist_skip].
Qed.

(** X13: the first rate the node measures.  On a node fresh from
    [__init__], after a first notification at a positive clock reading
    that the callback returned from, a second one [d > 0] later leaves
    the arrival rate at [0 + (1/d)*0.1]: one tenth of the rate of the
    two frames, the other nine tenths still being the initial 0. *)
Theorem first_measured_rate (b : boot raster) self w1 msg1 w2 msg2 :
  (init b).1 = Serving self ->
  (handle w1 msg1 self).1.1 = Ok tt ->
  (time_sub w1 >? 0)%float = true ->
  (time_sub w2 - time_sub w1 >? 0)%float = true ->
  sub_fps (serve self [(w1, msg1); (w2, msg2)]).1.2
  = (0 + 1 / (time_sub w2 - time_sub w1) * 0.1)%float.
Proof.
  intros (_ & _ & Hst & Hsf & _)%init_serving Hok Hclock Hd.
  assert (Hlast : (serve self [(w1, msg1); (w2, msg2)]).1.2
                  = (handle w2 msg2 (handle w1 msg1 self).1.2).1.2).
  { cbn [serve]. destruct (handle w1 msg1 self) as [[r1 self1] out1].
    cbn [fst snd] in *.
    now destruct (handle w2 msg2 self1) as [[? ?] ?]. }
  rewrite Hlast.
  destruct (handle_sub_state w2 msg2 (handle w1 msg1 self).1.2) as [_ ->].
  destruct (handle_sub_state w1 msg1 self) as [-> ->].
  rewrite Hst, Hsf. unfold ema at 1. rewrite Hclock, Hd. reflexivity.
Qed.

(** X14: a run of notifications on each of which the decoder raises (as
    OpenCV does on an empty payload) never stops the node and never
    publishes: every one of them is answered by one error line, and the
    run ends normally. *)
Theorem undecodable_run_only_logs inbox self :
  Forall (fun x => exists e, imdecode x.1 (ci_data x.2) = Raises e) inbox ->
  (serve self inbox).1.1 = Ok tt
  /\ images (serve self inbox).2 = []
  /\ batches (serve self inbox).2 = []
  /\ length (errors (serve self inbox).2) = length inbox.
Proof.
  intros Hall. revert self.
  induction Hall as [|[w msg] rest [e Hdec] _ IH]; intros self;
    cbn [serve]; [now repeat split|].
  cbn [fst snd] in Hdec. rewrite (handle_decode_error w msg self e Hdec).
  destruct (IH (intake w self)) as (Hok & Himg & Hbat & Herr).
  destruct (serve (intake w self) rest) as [[r self'] out].
  cbn [fst snd] in *. rewrite images_app, batches_app, Himg, Hbat.
  unfold errors in *. rewrite omap_app, length_app, Herr.
  now repeat split.
Qed.

End Callback.

(** * The statements at concrete inputs *)

(** The rate law on the node with previous time 100 and rate 10: at
    clock 100.5 both trackers move to [0.9*10 + 0.1*(1/d)]; at clock 99
    the arrival tracker, with [d <= 0], keeps its rate and still takes
    the new time. *)
Lemma fps_update_law_witness :
  let self := Demo.node [Demo.box] 100 10 in
  let w := Demo.world_ 100.5 (Ok (true, Demo.jpeg)) in
  let w' := Demo.world_ 99 (Ok (true, Demo.jpeg)) in
  ((sub_prev_time self >? 0)%float = true
   /\ (time_sub w - sub_prev_time self >? 0)%float = true
   /\ (time_sub w' - sub_prev_time self <=? 0)%float = true)
  /\ (sub_prev_time (handle w Demo.frame self).1.2 = 100.5%float
      /\ sub_fps (handle w Demo.frame self).1.2
         = (0.9 * 10 + 0.1 * (1 / (100.5 - 100)))%float
      /\ proc_prev_time (handle w Demo.frame self).1.2 = 100.75%float
      /\ proc_fps (handle w Demo.frame self).1.2
         = (0.9 * 10 + 0.1 * (1 / (100.75 - 100)))%float)
  /\ (sub_prev_time (handle w' Demo.frame self).1.2 = 99%float
      /\ sub_fps (handle w' Demo.frame self).1.2 = 10%float).
Proof.
  intros self w w'.
  split; [repeat split; reflexivity|].
  destruct (fps_update_law w Demo.frame self) as [[Ht Hsub] Hproc].
  destruct (Hproc "frame" {| plot := "frame+boxes"; obb := Some [Demo.box] |}
              eq_refl eq_refl) as [Ht' Hproc'].
  destruct (fps_update_law w' Demo.frame self) as [[Ht'' Hsub''] _].
  split; [|split].
  - split; [exact Ht|]. split; [apply Hsub; reflexivity|].
    split; [exact Ht'|]. apply Hproc'; reflexivity.
  - exact Ht''.
  - apply Hsub''; reflexivity.
Defined.

(** The early return on the system of [Demo]: the frame decodes, the
    detector finds the box, the encoder reports failure. *)
Lemma encode_failure_drops_detection_batch_witness :
  let w := Demo.world_ 100.5 (Ok (false, [])) in
  let self := Demo.node [Demo.box] 0 0 in
  let result := {| plot := "frame+boxes"; obb := Some [Demo.box] |} in
  (imdecode w (ci_data Demo.frame) = Ok "frame"
   /\ predict (model self) "frame" (confidence_threshold self) = Ok result
   /\ imencode w (overlay w (timed w (intake w self)) result)
      = Ok (false, []))
  /\ (handle w Demo.frame self).1.1 = Ok tt
  /\ (handle w Demo.frame self).2
     = [Log ERROR "Failed to encode annotated image."]
  /\ batches (handle w Demo.frame self).2 = [].
Proof.
  intros w self result.
  split; [repeat split|].
  destruct (encode_failure_drops_detection_batch
              w Demo.frame self "frame" result [] eq_refl eq_refl eq_refl)
    as (Hrun & _ & Hbatches).
  rewrite Hrun. now repeat split.
Defined.

(** The same on a frame in which the detector finds nothing. *)
Lemma empty_batch_lost_on_encode_failure_witness :
  let w := Demo.world_ 100.5 (Ok (false, [])) in
  let self := Demo.node [] 0 0 in
  let result := {| plot := "frame+boxes"; obb := Some [] |} in
  (imdecode w (ci_data Demo.frame) = Ok "frame"
   /\ predict (model self) "frame" (confidence_threshold self) = Ok result
   /\ boxes_of result = []
   /\ imencode w (overlay w (timed w (intake w self)) result)
      = Ok (false, []))
  /\ (handle w Demo.frame self).1.1 = Ok tt
  /\ batches (handle w Demo.frame self).2 = [].
Proof.
  intros w self result.
  split; [repeat split|].
  exact (empty_batch_lost_on_encode_failure
           w Demo.frame self "frame" result []
           eq_refl eq_refl eq_refl eq_refl).
Defined.

(** With an encoder that works, the frame without detections gets its
    empty batch. *)
Lemma empty_batch_published_demo :
  let w := Demo.world_ 100.5 (Ok (true, Demo.jpeg)) in
  batches (handle w Demo.frame (Demo.node [] 0 0)).2
  = [{| da_header := ci_header Demo.frame; detections := [] |}].
Proof. reflexivity. Qed.

(** The pairing on a frame where everything succeeds: one image, one
    batch, the same header. *)
Lemma published_messages_carry_header_witness :
  let w := Demo.world_ 100.5 (Ok (true, Demo.jpeg)) in
  let r := handle w Demo.frame (Demo.node [Demo.box] 0 0) in
  (r.1.1 = Ok tt /\ images r.2 <> [])
  /\ length (batches r.2) = 1
  /\ Forall (fun m => ci_header m = ci_header Demo.frame) (images r.2)
  /\ Forall (fun b => da_header b = ci_header Demo.frame) (batches r.2).
Proof.
  intros w r.
  assert (Hok : r.1.1 = Ok tt) by reflexivity.
  assert (Hsome : images r.2 <> []) by discriminate.
  destruct (published_messages_carry_header
              w Demo.frame (Demo.node [Demo.box] 0 0))
    as (Himg & Hbat & _ & _ & _ & Hpair).
  split; [now split|]. split; [exact (Hpair Hok Hsome)|]. now split.
Defined.

(** The first frame after [__init__] on the system of [Demo]. *)
Lemma first_frame_rates_stay_zero_witness :
  let w := Demo.world_ 100.5 (Ok (true, Demo.jpeg)) in
  let self := Demo.node [Demo.box] 0 0 in
  (init (Demo.boot_ [Demo.box])).1 = Serving self
  /\ sub_fps (handle w Demo.frame self).1.2 = 0%float
  /\ proc_fps (handle w Demo.frame self).1.2 = 0%float
  /\ sub_prev_time (handle w Demo.frame self).1.2 = 100.5%float.
Proof.
  intros w self.
  split; [reflexivity|].
  destruct (first_frame_rates_stay_zero
              (Demo.boot_ [Demo.box]) self w Demo.frame eq_refl)
    as (_ & _ & _ & Hsub & Hproc).
  split; [exact Hsub|]. split; [exact Hproc|]. reflexivity.
Defined.

(** An empty payload, then the frame of the scenario. *)
Lemma decode_failure_skips_frame_witness :
  let w := Demo.world_ 99.5 (Ok (true, Demo.jpeg)) in
  let w2 := Demo.world_ 100.5 (Ok (true, Demo.jpeg)) in
  let self := Demo.node [Demo.box] 0 0 in
  let e := Exn "error" "(-215:Assertion failed) !buf.empty()" in
  imdecode w (ci_data Demo.bad_frame) = Raises e
  /\ (handle w Demo.bad_frame self).1.1 = Ok tt
  /\ (handle w Demo.bad_frame self).2
     = [Log ERROR ("Error decoding compressed image: "
                   +:+ "(-215:Assertion failed) !buf.empty()")]
  /\ (serve self [(w, Demo.bad_frame); (w2, Demo.frame)]).1.1 = Ok tt
  /\ images (serve self [(w, Demo.bad_frame); (w2, Demo.frame)]).2
     = [annotated_msg Demo.frame Demo.jpeg]
  /\ length (batches (serve self [(w, Demo.bad_frame); (w2, Demo.frame)]).2)
     = 1.
Proof.
  intros w w2 self e.
  split; [reflexivity|].
  destruct (decode_failure_skips_frame w Demo.bad_frame self e eq_refl)
    as (Hbad & _ & _ & _ & Hnext).
  rewrite Hbad. do 2 (split; [reflexivity|]).
  rewrite (Hnext w2 Demo.frame "frame"
             {| plot := "frame+boxes"; obb := Some [Demo.box] |} Demo.jpeg
             [{| class_id := 2; class_name := "storage tank";
                 score := 0.83; x_center := 50; y_center := 60;
                 width := 20; height := 10; angle := 0.3 |}]
             eq_refl eq_refl eq_refl eq_refl eq_refl eq_refl).
  now repeat split.
Defined.

(** The scenario of the spec on the system of [Demo], where class 2 is
    named "storage tank". *)
Lemma end_to_end_scenario_witness :
  let w := Demo.world_ 100.5 (Ok (true, Demo.jpeg)) in
  let self := Demo.node [Demo.box] 0 0 in
  (ci_header Demo.frame = {| hdr_id := 7; hdr_stamp := 100.0 |}
   /\ confidence_threshold self = PFloat 0.5
   /\ names (model self) !! 2%Z = Some "storage tank")
  /\ (handle w Demo.frame self).2
     = [PublishImage (annotated_msg Demo.frame Demo.jpeg);
        PublishDetections
          {| da_header := {| hdr_id := 7; hdr_stamp := 100.0 |};
             detections :=
               [{| class_id := 2; class_name := "storage tank";
                   score := 0.83; x_center := 50; y_center := 60;
                   width := 20; height := 10; angle := 0.3 |}] |}].
Proof.
  intros w self.
  split; [repeat split|].
  destruct (end_to_end_scenario (raster:=string)) as [Hscenario _].
  destruct (Hscenario w Demo.frame self "frame"
              {| plot := "frame+boxes"; obb := Some [Demo.box] |}
              "storage tank" eq_refl eq_refl eq_refl eq_refl eq_refl eq_refl)
    as [_ Hrun].
  now rewrite (Hrun [PublishImage (annotated_msg Demo.frame Demo.jpeg)]
                 (image_published w Demo.frame _ Demo.jpeg eq_refl eq_refl)
                 eq_refl).
Defined.

(** The lookup on a class of the table and on one outside it. *)
Lemma class_name_direct_lookup_witness :
  (int_ (cls Demo.box) = Ok 2%Z
   /\ Demo.class_names !! 2%Z = Some "storage tank"
   /\ int_ (cls Demo.stray_box) = Ok 7%Z
   /\ Demo.class_names !! 7%Z = None)
  /\ (exists det,
        detection_of Demo.class_names Demo.box = Ok det
        /\ class_id det = 2%Z /\ class_name det = "storage tank")
  /\ detection_of Demo.class_names Demo.stray_box
     = Raises (Exn "KeyError" (pretty 7%Z)).
Proof.
  split; [repeat split|].
  destruct (class_name_direct_lookup (raster:=string)) as [Hone _].
  split; [exact (Hone Demo.class_names Demo.box 2%Z eq_refl)|].
  exact (Hone Demo.class_names Demo.stray_box 7%Z eq_refl).
Defined.

(** The detector of [Demo] keeps its side of the contract: no box below
    the threshold it is called with. *)
Lemma demo_detector_filters boxes thr image (result : Results string) :
  predict (Demo.detector boxes) image (PFloat thr) = Ok result ->
  Forall (fun box => (conf box <? thr)%float = false) (boxes_of result).
Proof.
  cbn [predict Demo.detector].
  destruct (for_obb Demo.class_names _ []); [|discriminate].
  intros [= <-]. unfold boxes_of. cbn [obb default from_option id].
  apply List.Forall_forall. intros box [_ Hkeep]%filter_In.
  now apply negb_true_iff.
Qed.

(** What the detector of [Demo] answers has been drawn: every box of it
    converts. *)
Lemma demo_detector_draws boxes c image (result : Results string) :
  predict (Demo.detector boxes) image c = Ok result ->
  exists dets, for_obb Demo.class_names (boxes_of result) [] = Ok dets.
Proof.
  destruct c as [?|thr|?|?]; try discriminate. cbn [predict Demo.detector].
  destruct (for_obb Demo.class_names _ []) as [dets|] eqn:Hfor;
    [|discriminate].
  intros [= <-]. unfold boxes_of. cbn [obb default from_option id]. eauto.
Qed.

(** The threshold on the system of [Demo]: not configured, so 0.5; the
    detector knows a box of confidence 0.83 and one of 0.25, and only
    the first is in the batch. *)
Lemma threshold_passed_unmodified_witness :
  let w := Demo.world_ 100.5 (Ok (true, Demo.jpeg)) in
  let boxes := [Demo.box; Demo.faint_box] in
  let self := Demo.node boxes 0 0 in
  ((init (Demo.boot_ boxes)).1 = Serving self
   /\ param_server (Demo.boot_ boxes) !! "~confidence_threshold" = None)
  /\ confidence_threshold self = PFloat 0.5
  /\ confidence_threshold (handle w Demo.frame self).1.2 = PFloat 0.5
  /\ length (batches (handle w Demo.frame self).2) = 1
  /\ forall b,
       b ∈ batches (handle w Demo.frame self).2 ->
       Forall (fun det => (score det <? 0.5)%float = false) (detections b).
Proof.
  intros w boxes self.
  split; [now split|].
  destruct (threshold_passed_unmodified (raster:=string))
    as (Hinit & Hkeep & _ & Hfilter).
  split; [exact (Hinit (Demo.boot_ boxes) self eq_refl)|].
  split; [exact (Hkeep w Demo.frame self)|].
  split; [reflexivity|].
  exact (Hfilter w Demo.frame self 0.5%float eq_refl
           (demo_detector_filters boxes 0.5%float)).
Defined.

(** The encoder raises on the frame of the scenario: the error is logged
    and the batch is published all the same. *)
Lemma image_exception_is_contained_witness :
  let e := Exn "error" "could not encode" in
  let w := Demo.world_ 100.5 (Raises e) in
  let self := Demo.node [Demo.box] 0 0 in
  let result := {| plot := "frame+boxes"; obb := Some [Demo.box] |} in
  (imdecode w (ci_data Demo.frame) = Ok "frame"
   /\ predict (model self) "frame" (confidence_threshold self) = Ok result
   /\ imencode w (overlay w (timed w (intake w self)) result) = Raises e)
  /\ (handle w Demo.frame self).1.1 = Ok tt
  /\ (handle w Demo.frame self).2
     = [Log ERROR "Error publishing annotated image: could not encode";
        PublishDetections
          {| da_header := ci_header Demo.frame;
             detections :=
               [{| class_id := 2; class_name := "storage tank";
                   score := 0.83; x_center := 50; y_center := 60;
                   width := 20; height := 10; angle := 0.3 |}] |}].
Proof.
  intros e w self result.
  split; [repeat split|].
  destruct (image_exception_is_contained
              w Demo.frame self "frame" result e
              eq_refl eq_refl (or_introl eq_refl)) as (Hrun & _ & _).
  now rewrite (Hrun _ eq_refl eq_refl).
Defined.

(** * More of the node, at concrete inputs *)

(** Start-up on the system of [Demo]: the engine file is there and
    loads. *)
Lemma init_serves_exactly_when_engine_loads_witness :
  let b := Demo.boot_ [Demo.box] in
  (load b (get_param b "~engine_model_path" (PStr ""))
   = Ok (Demo.detector [Demo.box])
   /\ path_exists b (get_param b "~engine_model_path" (PStr "")) = true)
  /\ (init b).1 = Serving (configured b (Demo.detector [Demo.box])).
Proof.
  intros b. split; [now split|].
  apply (init_serves_exactly_when_engine_loads b).
  exists (Demo.detector [Demo.box]). repeat split. now left.
Defined.

(** A start-up without engine file and without .pt model: one fatal
    line, the last of the trace. *)
Lemma init_fatal_exactly_when_idle_witness :
  let b : boot string :=
    {| param_server := ∅;
       path_exists := fun _ => false;
       load := fun _ => Ok (Demo.detector []);
       export := fun _ => Ok tt;
       str := fun p => match p with PStr s => s | _ => "?" end |} in
  (init b).1 = Idle
  /\ length (fatals (init b).2) = 1
  /\ exists text, last (init b).2 = Some (Log FATAL text).
Proof.
  intros b.
  destruct (init_fatal_exactly_when_idle b) as ([Hcount _] & [Hlast _] & _).
  split; [reflexivity|]. split; [exact (Hcount eq_refl)|exact (Hlast eq_refl)].
Defined.

(** An engine file that does not load, and an export that fails. *)
Lemma init_failure_modes_witness :
  let e := Exn "RuntimeError" "bad engine" in
  let b1 : boot string :=
    {| param_server := {[ "~engine_model_path" := PStr "/m/obb.engine" ]};
       path_exists := fun _ => true;
       load := fun _ => Raises e;
       export := fun _ => Ok tt;
       str := fun p => match p with PStr s => s | _ => "?" end |} in
  let b2 : boot string :=
    {| param_server := {[ "~pt_model_path" := PStr "/m/obb.pt" ]};
       path_exists := fun p =>
         match p with PStr "/m/obb.pt" => true | _ => false end;
       load := fun _ => Ok (Demo.detector []);
       export := fun _ => Raises e;
       str := fun p => match p with PStr s => s | _ => "?" end |} in
  (init b1
   = (Idle,
      [Log INFO "Loading TensorRT engine from /m/obb.engine";
       Log FATAL "Failed to load YOLO-OBB model. Error: bad engine"]))
  /\ (init b2).1 = Crashed e
  /\ fatals (init b2).2 = [].
Proof.
  intros e b1 b2.
  destruct (init_failure_modes b1 e) as [Hcaught _].
  destruct (init_failure_modes b2 e) as [_ Hescapes].
  split; [exact (Hcaught eq_refl eq_refl)|].
  destruct (Hescapes eq_refl eq_refl
              (or_intror (ex_intro _ (Demo.detector []) (conj eq_refl eq_refl))))
    as [Hend Htrace].
  split; [exact Hend|]. now rewrite Htrace.
Defined.

(** With the engine file there, an export that would fail changes
    nothing. *)
Lemma init_skips_export_when_engine_exists_witness :
  let b := Demo.boot_ [Demo.box] in
  path_exists b (get_param b "~engine_model_path" (PStr "")) = true
  /\ init b
     = init {| param_server := param_server b;
               path_exists := path_exists b;
               load := load b;
               export := fun _ => Raises (Exn "RuntimeError" "no GPU");
               str := str b |}.
Proof.
  intros b. split; [reflexivity|].
  exact (init_skips_export_when_engine_exists b _ eq_refl).
Defined.

(** The process on the system of [Demo] with the frame of the scenario:
    it publishes, so it logged that it is ready. *)
Lemma main_publishes_only_when_serving_witness :
  let b := Demo.boot_ [Demo.box] in
  let inbox := [(Demo.world_ 100.5 (Ok (true, Demo.jpeg)), Demo.frame)] in
  length (images (main b inbox).2) = 1
  /\ (exists self, (init b).1 = Serving self)
  /\ Log INFO "YOLO OBB Ultralytics node initialized and ready."
     ∈ (main b inbox).2.
Proof.
  intros b inbox. split; [reflexivity|].
  destruct (main_publishes_only_when_serving b inbox) as [Honly _].
  apply Honly. left. discriminate.
Defined.

(** A threshold configured as text: the detector of [Demo] refuses it. *)
Lemma detector_exception_escapes_witness :
  let w := Demo.world_ 100.5 (Ok (true, Demo.jpeg)) in
  let self : YoloOBBNode string :=
    {| engine_model_path := PStr "/models/obb.engine";
       input_topic := PStr "/camera/color/image_raw/compressed";
       obb_topic := PStr "/yolo_obb";
       annotated_image_topic := PStr "/yolo_obb/camera/color/compressed";
       confidence_threshold := PStr "high";
       proc_prev_time := 90; proc_fps := 4;
       sub_prev_time := 100; sub_fps := 10;
       model := Demo.detector [Demo.box] |} in
  let e := Exn "TypeError" "conf must be a number" in
  predict (model self) "frame" (confidence_threshold self) = Raises e
  /\ (handle w Demo.frame self).1.1 = Raises e
  /\ (handle w Demo.frame self).2 = []
  /\ proc_prev_time (handle w Demo.frame self).1.2 = 90%float
  /\ proc_fps (handle w Demo.frame self).1.2 = 4%float.
Proof.
  intros w self e. split; [reflexivity|].
  destruct (detector_exception_escapes w Demo.frame self "frame" e
              eq_refl eq_refl) as (Hout & Htrace & _ & Hprev & Hfps).
  now repeat split.
Defined.

(** The batch of a frame with two boxes above the threshold. *)
Lemma batch_is_complete_witness :
  let w := Demo.world_ 100.5 (Ok (true, Demo.jpeg)) in
  let self := Demo.node [Demo.box; Demo.faint_box; Demo.box] 0 0 in
  let b :=
    {| da_header := ci_header Demo.frame;
       detections :=
         [{| class_id := 2; class_name := "storage tank"; score := 0.83;
             x_center := 50; y_center := 60; width := 20; height := 10;
             angle := 0.3 |};
          {| class_id := 2; class_name := "storage tank"; score := 0.83;
             x_center := 50; y_center := 60; width := 20; height := 10;
             angle := 0.3 |}] |} in
  batches (handle w Demo.frame self).2 = [b]
  /\ exists cv_image result,
       predict (model self) cv_image (confidence_threshold self) = Ok result
       /\ length (detections b) = length (boxes_of result).
Proof.
  intros w self b.
  assert (Hb : batches (handle w Demo.frame self).2 = [b]) by reflexivity.
  split; [exact Hb|].
  destruct (batch_is_complete w Demo.frame self b) as
    (cv_image & result & _ & Hdet & Hlen & _).
  - rewrite Hb. left.
  - eauto.
Defined.

(** A cycle that publishes both messages, and one whose encoder reports
    failure. *)
Lemma image_or_one_error_witness :
  let self := Demo.node [Demo.box] 0 0 in
  let r := handle (Demo.world_ 100.5 (Ok (true, Demo.jpeg))) Demo.frame self in
  let r' := handle (Demo.world_ 100.5 (Ok (false, []))) Demo.frame self in
  (r.1.1 = Ok tt /\ r'.1.1 = Ok tt /\ length (batches r.2) = 1)
  /\ (length (images r.2) = 1 /\ length (errors r.2) = 0)
  /\ (length (images r'.2) = 0 /\ length (errors r'.2) = 1)
  /\ length (images r.2) + length (errors r.2) = 1
  /\ length (images r'.2) + length (errors r'.2) = 1.
Proof.
  intros self r r'.
  destruct (image_or_one_error
              (Demo.world_ 100.5 (Ok (true, Demo.jpeg))) Demo.frame self)
    as (_ & Hone & _).
  destruct (image_or_one_error
              (Demo.world_ 100.5 (Ok (false, []))) Demo.frame self)
    as (_ & Hone' & _).
  split; [now repeat split|]. do 2 (split; [now split|]).
  split; [exact (Hone eq_refl)|exact (Hone' eq_refl)].
Defined.

(** Two frames a quarter of a second apart on the system of [Demo]: the
    rate of the frames is 4, the node shows 0.4. *)
Lemma first_measured_rate_witness :
  let b := Demo.boot_ [Demo.box] in
  let self := Demo.node [Demo.box] 0 0 in
  let w1 := Demo.world_ 100 (Ok (true, Demo.jpeg)) in
  let w2 := Demo.world_ 100.25 (Ok (true, Demo.jpeg)) in
  ((init b).1 = Serving self
   /\ (handle w1 Demo.frame self).1.1 = Ok tt
   /\ (time_sub w1 >? 0)%float = true
   /\ (time_sub w2 - time_sub w1 >? 0)%float = true)
  /\ sub_fps (serve self [(w1, Demo.frame); (w2, Demo.frame)]).1.2
     = 0.4%float.
Proof.
  intros b self w1 w2. split; [now repeat split|].
  rewrite (first_measured_rate b self w1 Demo.frame w2 Demo.frame
             eq_refl eq_refl eq_refl eq_refl).
  reflexivity.
Defined.

(** Three empty payloads in a row. *)
Lemma undecodable_run_only_logs_witness :
  let w := Demo.world_ 100.5 (Ok (true, Demo.jpeg)) in
  let inbox := [(w, Demo.bad_frame); (w, Demo.bad_frame); (w, Demo.bad_frame)] in
  let self := Demo.node [Demo.box] 0 0 in
  (serve self inbox).1.1 = Ok tt
  /\ images (serve self inbox).2 = []
  /\ batches (serve self inbox).2 = []
  /\ length (errors (serve self inbox).2) = 3.
Proof.
  intros w inbox self.
  apply (undecodable_run_only_logs inbox self).
  repeat constructor; eexists; reflexivity.
Defined.

(** Bytes that are no image, on the systems of [Undecoded]: the decoder
    answers [None] and no decode error is logged.  With the detector
    that runs on its own sample image both messages are published under
    the header of the notification; with the one that refuses, its
    exception leaves the callback and the trace is empty. *)
Lemma undecoded_payload_reaches_detector_witness :
  let w := Undecoded.world_ 100.5 in
  let msg := Undecoded.frame in
  let sampling := Undecoded.node Undecoded.sampling in
  let refusing := Undecoded.node Undecoded.refusing in
  let refusal := Exn "TypeError" "Unsupported image type" in
  imdecode w (ci_data msg) = Ok None
  /\ (handle w msg sampling).1.1 = Ok tt
  /\ (handle w msg sampling).2
     = [PublishImage (annotated_msg msg Demo.jpeg);
        PublishDetections
          {| da_header := ci_header msg;
             detections :=
               [{| class_id := 2; class_name := "storage tank";
                   score := 0.83; x_center := 50; y_center := 60;
                   width := 20; height := 10; angle := 0.3 |}] |}]
  /\ (handle w msg refusing).1.1 = Raises refusal
  /\ (handle w msg refusing).2 = [].
Proof.
  intros w msg sampling refusing refusal.
  split; [reflexivity|].
  destruct (undecoded_payload_reaches_detector w msg sampling None eq_refl)
    as (_ & _ & Hanswer).
  destruct (undecoded_payload_reaches_detector w msg refusing None eq_refl)
    as (_ & Hraise & _).
  rewrite (Hanswer
             {| plot := Some "sample+boxes"; obb := Some [Demo.box] |}
             Demo.jpeg
             [{| class_id := 2; class_name := "storage tank";
                 score := 0.83; x_center := 50; y_center := 60;
                 width := 20; height := 10; angle := 0.3 |}]
             eq_refl eq_refl eq_refl eq_refl eq_refl).
  rewrite (Hraise refusal eq_refl).
  now repeat split.
Defined.

(** The claim of C4 fails where the detection publisher refuses the
    batch: the annotated image is out, the exception of line 140 leaves
    the callback, and the image stays without a batch. *)
Lemma image_published_then_batch_refused :
  let w := Demo.world_closed 100.5 (Ok (true, Demo.jpeg)) in
  let self := Demo.node [Demo.box] 0 0 in
  (handle w Demo.frame self).1.1
  = Raises (Exn "ROSException" "publish() to a closed topic")
  /\ images (handle w Demo.frame self).2
     = [annotated_msg Demo.frame Demo.jpeg]
  /\ batches (handle w Demo.frame self).2 = [].
Proof. vm_compute. now repeat split. Qed.
